(** * Set Origin to Bottom/Top: a shallow embedding of [origin_to.py]

    The add-on computes, for every selected mesh object, the bottom-centre or
    top-centre of the axis-aligned bounding box of its world-space vertices
    and asks the host application to move the object's origin there.

    Layout of the development:
    - [Py]: the exceptions a Python expression of the source can raise, as an
      error monad;
    - [PyFloat]: Python's [float] (IEEE-754 binary64) on [spec_float], with
      the comparisons, the addition and the true division the source uses,
      and the built-ins [min] and [max] over floats;
    - [Vector]: the three components the source reads from and stores into a
      [mathutils.Vector];
    - [Host]: the part of the host application ([bpy]) the source talks to;
    - the calculator and the two operators, translated statement by
      statement;
    - the theorems.

    The console output of the source ([print]) is diagnostic only and is not
    part of the model. *)

From Stdlib Require Import ZArith List String Bool Lia Permutation.
From Stdlib Require Import Floats.SpecFloat.
Import ListNotations.

Set Implicit Arguments.

(** ** Exceptions *)

Module Py.

Inductive exn : Type :=
| ValueError          (* min() or max() of an empty sequence *)
| ZeroDivisionError   (* float division by zero *)
| TypeError.          (* a value of the wrong type given to the host *)

Inductive result (A : Type) : Type :=
| Ok (a : A)
| Raise (e : exn).

Arguments Ok {A} a.
Arguments Raise {A} e.

Definition bind {A B : Type} (c : result A) (k : A -> result B) : result B :=
  match c with
  | Ok a => k a
  | Raise e => Raise e
  end.

End Py.

Import Py.

Declare Scope py_scope.
Delimit Scope py_scope with py.
Notation "x <- c ;; k" := (Py.bind c (fun x => k))
  (at level 61, c at next level, right associativity) : py_scope.
Local Open Scope py_scope.

(** ** Python floats *)

Module PyFloat.

(** A Python [float] is an IEEE-754 binary64 number. *)
Definition float : Type := spec_float.

Definition prec : Z := 53.
Definition emax : Z := 1024.

Definition nan : float := S754_nan.

(** [a < b] and [a > b]: false as soon as one side is a NaN. *)
Definition lt (a b : float) : bool := SFltb a b.
Definition gt (a b : float) : bool := lt b a.
Definition le (a b : float) : bool := SFleb a b.
(** [a == b] *)
Definition eq (a b : float) : bool := SFeqb a b.

Definition is_nan (a : float) : bool :=
  match a with S754_nan => true | _ => false end.

Definition is_zero (a : float) : bool :=
  match a with S754_zero _ => true | _ => false end.

(** [a + b] *)
Definition add (a b : float) : float := SFadd prec emax a b.

(** [a / b]: Python raises on a zero divisor instead of returning an
    infinity or a NaN. *)
Definition truediv (a b : float) : result float :=
  if is_zero b then Raise ZeroDivisionError else Ok (SFdiv prec emax a b).

(** The integer literal [2] converted to a float: 2^52 * 2^-51. *)
Definition two : float := S754_finite false 4503599627370496 (-51).

(** Literals of the scenarios: 0.0, 0.5, -0.5 and 1.0. *)
Definition zero : float := S754_zero false.
Definition pos_half : float := S754_finite false 4503599627370496 (-53).
Definition neg_half : float := S754_finite true 4503599627370496 (-53).
Definition one : float := S754_finite false 4503599627370496 (-52).

(** [a / 2] once the zero test of the divisor is past. *)
Definition half (a : float) : float := SFdiv prec emax a two.

(** The built-in [min] keeps the first item and replaces it by a later
    one only when [item < best]; [max] does the same with [item > best]. *)
Fixpoint min_from (best : float) (l : list float) : float :=
  match l with
  | [] => best
  | item :: l' => min_from (if lt item best then item else best) l'
  end.

Fixpoint max_from (best : float) (l : list float) : float :=
  match l with
  | [] => best
  | item :: l' => max_from (if gt item best then item else best) l'
  end.

Definition min (l : list float) : result float :=
  match l with
  | [] => Raise ValueError
  | first :: l' => Ok (min_from first l')
  end.

Definition max (l : list float) : result float :=
  match l with
  | [] => Raise ValueError
  | first :: l' => Ok (max_from first l')
  end.

(** Equality of floats as values: the same float, or two zeros whatever
    their signs.  On floats that are not NaN this is Python's [==]. *)
Definition eqv (a b : float) : Prop :=
  a = b \/ (is_zero a = true /\ is_zero b = true).

Definition no_nan (l : list float) : bool :=
  forallb (fun v => negb (is_nan v)) l.

End PyFloat.

(** ** Vectors *)

(** A [mathutils.Vector] of dimension 3, as the source uses it: built from
    three floats by [Vector((a, b, c))] and read back through [.x], [.y] and
    [.z].  The components are taken as stored unchanged, with no rounding
    or snapping. *)
Record Vector : Type := mkVector {
  x : PyFloat.float;
  y : PyFloat.float;
  z : PyFloat.float
}.

(** [len(v)] is the dimension of the vector. *)
Definition Vector_len (v : Vector) : nat := 3.

(** [Vector.copy()] is a new vector with the same components. *)
Definition Vector_copy (v : Vector) : Vector := mkVector (x v) (y v) (z v).

(** Componentwise equality as values. *)
Definition Vector_eqv (v w : Vector) : Prop :=
  PyFloat.eqv (x v) (x w) /\ PyFloat.eqv (y v) (y w) /\ PyFloat.eqv (z v) (z w).

(** Python's truth test, at the two types [origin_point] can have.  [None]
    is false.  A [Vector] has a length and no truth method of its own, so it
    is true exactly when its length is not zero. *)
Definition truth (v : option Vector) : bool :=
  match v with
  | None => false
  | Some v => negb (Nat.eqb (Vector_len v) 0)
  end.

(** ** The host application *)

(** What [bpy] holds for one invocation: the two pieces of ambient state the
    operators save and restore, the selection, and everything else the host
    owns (transforms, meshes, origins), which the source never looks into. *)
Record Ctx (Obj Scene : Type) : Type := mkCtx {
  cursor_location : Vector;        (* context.scene.cursor.location *)
  active_object : option Obj;      (* context.view_layer.objects.active *)
  selected_objects : list Obj;     (* context.selected_objects *)
  scene : Scene
}.

(** The host interface the source consumes.  Objects are references; what
    the source reads from one may depend on the current scene. *)
Class Host : Type := {
  Obj : Type;
  Scene : Type;
  Matrix : Type;
  (** [obj.type] *)
  type : Obj -> string;
  (** [obj.matrix_world] *)
  matrix_world : Scene -> Obj -> Matrix;
  (** [[v.co for v in obj.evaluated_get(depsgraph).data.vertices]] *)
  evaluated_vertices : Scene -> Obj -> list Vector;
  (** [m @ v] *)
  matmul : Matrix -> Vector -> Vector;
  (** [bpy.ops.object.origin_set(type='ORIGIN_CURSOR')]: a command of the
      host that acts on the whole context.  It is taken to return normally;
      the source neither catches nor inspects what it does. *)
  origin_set : Ctx Obj Scene -> Ctx Obj Scene
}.

(** ** [SetOriginBase.calculate_origin_point] *)

Section Calculator.

Context {H : Host}.

(** [[obj.matrix_world @ v.co for v in mesh.vertices]] *)
Definition world_verts (s : Scene) (obj : Obj) : list Vector :=
  map (fun co => matmul (matrix_world s obj) co) (evaluated_vertices s obj).

(** The statements after the comprehension, on the list it built. *)
Definition origin_of_verts (world_verts : list Vector) (use_bottom : bool)
  : result (option Vector) :=
  match world_verts with
  | [] => Ok None
  | _ :: _ =>
      min_x <- PyFloat.min (map x world_verts) ;;
      max_x <- PyFloat.max (map x world_verts) ;;
      min_y <- PyFloat.min (map y world_verts) ;;
      max_y <- PyFloat.max (map y world_verts) ;;
      min_z <- PyFloat.min (map z world_verts) ;;
      max_z <- PyFloat.max (map z world_verts) ;;
      center_x <- PyFloat.truediv (PyFloat.add min_x max_x) PyFloat.two ;;
      center_y <- PyFloat.truediv (PyFloat.add min_y max_y) PyFloat.two ;;
      let target_z := if use_bottom then min_z else max_z in
      Ok (Some (mkVector center_x center_y target_z))
  end.

Definition calculate_origin_point (s : Scene) (obj : Obj) (use_bottom : bool)
  : result (option Vector) :=
  origin_of_verts (world_verts s obj) use_bottom.

End Calculator.


(** ** The operators *)

(** What an operator does to the host, in the order it does it. *)
Inductive Event (Obj : Type) : Type :=
| Calc (obj : Obj) (use_bottom : bool)     (* self.calculate_origin_point(obj, use_bottom=...) *)
| CursorSet (p : Vector)                   (* context.scene.cursor.location = p *)
| ActiveSet (obj : option Obj)             (* context.view_layer.objects.active = obj *)
| OriginSet.                               (* bpy.ops.object.origin_set(type='ORIGIN_CURSOR') *)

Arguments CursorSet {Obj} p.
Arguments OriginSet {Obj}.

(** A statement of an operator runs in a context; it raises, or it yields a
    value, the context it leaves and the events it caused. *)
Definition M (Obj Scene A : Type) : Type :=
  Ctx Obj Scene -> result (A * Ctx Obj Scene * list (Event Obj)).

Definition ret {Obj Scene A : Type} (a : A) : M Obj Scene A :=
  fun c => Ok (a, c, []).

Definition mbind {Obj Scene A B : Type}
  (m : M Obj Scene A) (k : A -> M Obj Scene B) : M Obj Scene B :=
  fun c =>
    match m c with
    | Raise e => Raise e
    | Ok (a, c1, ev1) =>
        match k a c1 with
        | Raise e => Raise e
        | Ok (b, c2, ev2) => Ok (b, c2, ev1 ++ ev2)
        end
    end.

Declare Scope op_scope.
Delimit Scope op_scope with op.
Notation "x <- c ;; k" := (mbind c (fun x => k))
  (at level 61, c at next level, right associativity) : op_scope.
Notation "c ;; k" := (mbind c (fun _ => k))
  (at level 61, right associativity) : op_scope.

(** [for obj in objs: body(obj)], where [continue] ends [body]. *)
Fixpoint for_each {Obj Scene : Type}
  (objs : list Obj) (body : Obj -> M Obj Scene unit) : M Obj Scene unit :=
  match objs with
  | [] => ret tt
  | obj :: objs' => mbind (body obj) (fun _ => for_each objs' body)
  end.

(** The value an operator hands back to the host: a set of status names. *)
Definition FINISHED : list string := ["FINISHED"%string].

Section Operators.

Context {H : Host}.

Local Open Scope op_scope.

(** [context.scene.cursor.location] *)
Definition get_cursor_location : M Obj Scene Vector :=
  fun c => Ok (cursor_location c, c, []).

(** [context.active_object], which reads what
    [context.view_layer.objects.active] holds. *)
Definition get_active_object : M Obj Scene (option Obj) :=
  fun c => Ok (active_object c, c, []).

(** [context.selected_objects], read once when the loop starts. *)
Definition get_selected_objects : M Obj Scene (list Obj) :=
  fun c => Ok (selected_objects c, c, []).

(** [context.scene.cursor.location = p] *)
Definition set_cursor_location (p : Vector) : M Obj Scene unit :=
  fun c =>
    Ok (tt, mkCtx p (active_object c) (selected_objects c) (scene c),
        [CursorSet p]).

(** The same assignment when the right-hand side may be [None], which the
    host refuses. *)
Definition assign_cursor_location (p : option Vector) : M Obj Scene unit :=
  match p with
  | Some p => set_cursor_location p
  | None => fun _ => Raise TypeError
  end.

(** [context.view_layer.objects.active = obj] *)
Definition set_active_object (obj : option Obj) : M Obj Scene unit :=
  fun c =>
    Ok (tt, mkCtx (cursor_location c) obj (selected_objects c) (scene c),
        [ActiveSet obj]).

(** [bpy.ops.object.origin_set(type='ORIGIN_CURSOR')] *)
Definition ops_object_origin_set : M Obj Scene unit :=
  fun c => Ok (tt, origin_set c, [OriginSet]).

(** [self.calculate_origin_point(obj, use_bottom=...)], which reads the
    current scene and changes nothing. *)
Definition call_calculate_origin_point (obj : Obj) (use_bottom : bool)
  : M Obj Scene (option Vector) :=
  fun c =>
    match calculate_origin_point (scene c) obj use_bottom with
    | Ok r => Ok (r, c, [Calc obj use_bottom])
    | Raise e => Raise e
    end.

(** *** [SetOriginBottomOperator.execute] *)

Definition SetOriginBottomOperator_body (obj : Obj) : M Obj Scene unit :=
  if negb (String.eqb (type obj) "MESH") then ret tt
  else
    origin_point <- call_calculate_origin_point obj true ;;
    if negb (truth origin_point) then ret tt
    else
      assign_cursor_location origin_point ;;
      set_active_object (Some obj) ;;
      ops_object_origin_set.

Definition SetOriginBottomOperator_execute : M Obj Scene (list string) :=
  cursor <- get_cursor_location ;;
  let original_cursor := Vector_copy cursor in
  original_active <- get_active_object ;;
  objs <- get_selected_objects ;;
  for_each objs SetOriginBottomOperator_body ;;
  set_cursor_location original_cursor ;;
  set_active_object original_active ;;
  ret FINISHED.

(** *** [SetOriginTopOperator.execute] *)

Definition SetOriginTopOperator_body (obj : Obj) : M Obj Scene unit :=
  if negb (String.eqb (type obj) "MESH") then ret tt
  else
    origin_point <- call_calculate_origin_point obj false ;;
    if negb (truth origin_point) then ret tt
    else
      assign_cursor_location origin_point ;;
      set_active_object (Some obj) ;;
      ops_object_origin_set.

Definition SetOriginTopOperator_execute : M Obj Scene (list string) :=
  cursor <- get_cursor_location ;;
  let original_cursor := Vector_copy cursor in
  original_active <- get_active_object ;;
  objs <- get_selected_objects ;;
  for_each objs SetOriginTopOperator_body ;;
  set_cursor_location original_cursor ;;
  set_active_object original_active ;;
  ret FINISHED.

(** The operator and its loop body by mode: [true] is BOTTOM, [false] is
    TOP. *)
Definition operator_body (use_bottom : bool) : Obj -> M Obj Scene unit :=
  if use_bottom then SetOriginBottomOperator_body
  else SetOriginTopOperator_body.

Definition operator (use_bottom : bool) : M Obj Scene (list string) :=
  if use_bottom then SetOriginBottomOperator_execute
  else SetOriginTopOperator_execute.

End Operators.



(** ** Order and extrema of floats *)

(** Floats that are not NaN are ordered like the triples [float_key] gives
    them, compared from left to right: the class first (negative infinity,
    negative, zero, positive, positive infinity), then exponent and
    mantissa, both reversed below zero. *)
Definition float_key (a : PyFloat.float) : Z * Z * Z :=
  match a with
  | S754_nan => (0, 0, 0)
  | S754_zero _ => (0, 0, 0)
  | S754_infinity false => (2, 0, 0)
  | S754_infinity true => (-2, 0, 0)
  | S754_finite false m e => (1, e, Zpos m)
  | S754_finite true m e => (-1, - e, Zneg m)
  end%Z.

Definition key_lt (k1 k2 : Z * Z * Z) : Prop :=
  let '(a1, b1, c1) := k1 in
  let '(a2, b2, c2) := k2 in
  (a1 < a2 \/ (a1 = a2 /\ (b1 < b2 \/ (b1 = b2 /\ c1 < c2))))%Z.

(** [m] is a minimum of [l]: it occurs in [l] and no item of [l] is below
    it; when [l] holds no NaN, it is at most every item of [l]. *)
Definition is_min (l : list PyFloat.float) (m : PyFloat.float) : Prop :=
  In m l /\
  (forall v, In v l -> PyFloat.lt v m = false) /\
  (PyFloat.no_nan l = true -> forall v, In v l -> PyFloat.le m v = true).

Definition is_max (l : list PyFloat.float) (m : PyFloat.float) : Prop :=
  In m l /\
  (forall v, In v l -> PyFloat.gt v m = false) /\
  (PyFloat.no_nan l = true -> forall v, In v l -> PyFloat.le v m = true).


(** ** The batch relocation procedure, by mode *)

(** The procedure both operators are instances of, written once with the
    mode as a parameter: snapshot, one relocation per eligible object,
    restoration. *)
Section BatchRelocation.

Context {H : Host}.

Local Open Scope op_scope.

(** Step 2 for one object: nothing unless it is a mesh for which the
    calculator yields a point. *)
Definition relocate (use_bottom : bool) (obj : Obj) : M Obj Scene unit :=
  if String.eqb (type obj) "MESH" then
    origin_point <- call_calculate_origin_point obj use_bottom ;;
    match origin_point with
    | None => ret tt
    | Some p =>
        set_cursor_location p ;;
        set_active_object (Some obj) ;;
        ops_object_origin_set
    end
  else ret tt.

Definition batch_relocation (use_bottom : bool) : M Obj Scene (list string) :=
  fun c =>
    let saved_cursor := cursor_location c in
    let saved_active := active_object c in
    match for_each (selected_objects c) (relocate use_bottom) c with
    | Raise e => Raise e
    | Ok (_, c', ev) =>
        Ok (FINISHED,
            mkCtx saved_cursor saved_active (selected_objects c') (scene c'),
            ev ++ [CursorSet saved_cursor; ActiveSet saved_active])
    end.

(** An object is skipped when its turn causes no cursor move and no
    relocation call. *)
Definition is_relocation (e : Event Obj) : bool :=
  match e with
  | CursorSet _ | OriginSet => true
  | Calc _ _ | ActiveSet _ => false
  end.

Definition skipped (ev : list (Event Obj)) : bool :=
  negb (existsb is_relocation ev).

(** The object an event is about, if any. *)
Definition event_object (e : Event Obj) : option Obj :=
  match e with
  | Calc obj _ => Some obj
  | ActiveSet obj => obj
  | CursorSet _ | OriginSet => None
  end.

(** The events of a turn that relocates [obj] to [p]. *)
Definition relocation_events (use_bottom : bool) (obj : Obj) (p : Vector)
  : list (Event Obj) :=
  [Calc obj use_bottom; CursorSet p; ActiveSet (Some obj); OriginSet].

(** The context the host command is called in during such a turn. *)
Definition relocation_ctx (c : Ctx Obj Scene) (obj : Obj) (p : Vector)
  : Ctx Obj Scene :=
  mkCtx p (Some obj) (selected_objects c) (scene c).

(** The two assignments that end every invocation. *)
Definition restore_events (c : Ctx Obj Scene) : list (Event Obj) :=
  [CursorSet (cursor_location c); ActiveSet (active_object c)].

(** What a turn of either loop yields, by the type of the object and the
    result of the calculator. *)
Definition turn (use_bottom : bool) (obj : Obj) (c : Ctx Obj Scene)
  : result (unit * Ctx Obj Scene * list (Event Obj)) :=
  if String.eqb (type obj) "MESH" then
    match calculate_origin_point (scene c) obj use_bottom with
    | Raise e => Raise e
    | Ok None => Ok (tt, c, [Calc obj use_bottom])
    | Ok (Some p) =>
        Ok (tt, origin_set (relocation_ctx c obj p),
            relocation_events use_bottom obj p)
    end
  else Ok (tt, c, []).

End BatchRelocation.

(** ** Scenario data *)

Definition zero_vector : Vector :=
  mkVector PyFloat.zero PyFloat.zero PyFloat.zero.

Definition is_zero_vector (p : Vector) : bool :=
  PyFloat.is_zero (x p) && PyFloat.is_zero (y p) && PyFloat.is_zero (z p).


(** The eight corners of the unit cube centred at the world origin. *)
Definition unit_cube : list Vector :=
  [ mkVector PyFloat.neg_half PyFloat.neg_half PyFloat.neg_half;
    mkVector PyFloat.neg_half PyFloat.neg_half PyFloat.pos_half;
    mkVector PyFloat.neg_half PyFloat.pos_half PyFloat.neg_half;
    mkVector PyFloat.neg_half PyFloat.pos_half PyFloat.pos_half;
    mkVector PyFloat.pos_half PyFloat.neg_half PyFloat.neg_half;
    mkVector PyFloat.pos_half PyFloat.neg_half PyFloat.pos_half;
    mkVector PyFloat.pos_half PyFloat.pos_half PyFloat.neg_half;
    mkVector PyFloat.pos_half PyFloat.pos_half PyFloat.pos_half ].

(** ** A small host *)

(** A host with just enough in it to run the operators.  Objects are known
    by their names; each has a type and world-space vertices, the world
    transform is the identity, and the scene records the origins that were
    moved. *)
Module Demo.

Local Open Scope string_scope.

Definition object : Type := string.

Definition cube : object := "Cube".
Definition cube_reversed : object := "CubeReversed".
Definition empty_mesh : object := "Empty".
Definition light : object := "Light".
Definition dot : object := "Dot".
Definition nan_first : object := "NanFirst".
Definition nan_last : object := "NanLast".

Definition kind (obj : object) : string :=
  if String.eqb obj light then "LIGHT" else "MESH".

(** [dot] has its single vertex at the world origin; [nan_first] and
    [nan_last] have the same two vertices in opposite orders, one of them
    with a NaN coordinate. *)
Definition verts (obj : object) : list Vector :=
  if String.eqb obj cube then unit_cube
  else if String.eqb obj cube_reversed then rev unit_cube
  else if String.eqb obj dot then [zero_vector]
  else if String.eqb obj nan_first then
    [ mkVector PyFloat.nan PyFloat.zero PyFloat.zero;
      mkVector PyFloat.one PyFloat.zero PyFloat.zero ]
  else if String.eqb obj nan_last then
    [ mkVector PyFloat.one PyFloat.zero PyFloat.zero;
      mkVector PyFloat.nan PyFloat.zero PyFloat.zero ]
  else [].

(** Origins moved so far, latest first. *)
Definition origins : Type := list (object * Vector).

Fixpoint origin (s : origins) (obj : object) : option Vector :=
  match s with
  | [] => None
  | (n, p) :: s' => if String.eqb n obj then Some p else origin s' obj
  end.

(** Modelled from the spec: the host mutation named there as relocating
    the origin of an object to the current cursor position, applied to the
    object the procedure has just made active. *)
Definition origin_to_cursor (c : Ctx object origins) : Ctx object origins :=
  match active_object c with
  | None => c
  | Some obj =>
      mkCtx (cursor_location c) (active_object c) (selected_objects c)
            ((obj, cursor_location c) :: scene c)
  end.

Definition host : Host := {|
  Obj := object;
  Scene := origins;
  Matrix := unit;
  type := kind;
  matrix_world := fun _ _ => tt;
  evaluated_vertices := fun _ obj => verts obj;
  matmul := fun _ co => co;
  origin_set := origin_to_cursor
|}.

(** A context with the cursor away from every computed point and no origin
    moved yet. *)
Definition ctx (active : option object) (selection : list object)
  : Ctx object origins :=
  mkCtx (mkVector PyFloat.one PyFloat.one PyFloat.one) active selection [].

(** The scenario of a valid mesh, a mesh without vertices and an object
    that is not a mesh, the last one being active. *)
Definition mixed : Ctx object origins :=
  ctx (Some light) [empty_mesh; cube; light].

End Demo.

(** ** Vertices inside a bounding box *)

(** [w] lies in the bounding box of [vs]: on each axis some vertex of [vs]
    is at most [w] and some vertex of [vs] is at least [w]. *)
Definition between (l : list PyFloat.float) (w : PyFloat.float) : bool :=
  existsb (fun a => PyFloat.le a w) l && existsb (fun b => PyFloat.le w b) l.

Definition in_box (vs : list Vector) (w : Vector) : bool :=
  between (map x vs) (x w) && between (map y vs) (y w) &&
  between (map z vs) (z w).

(** ** Meshes given by their vertices *)

(** A host whose objects are meshes known by their world-space vertex
    lists, for trying the calculator on explicit geometry. *)
Module Shapes.

Definition host : Host := {|
  Obj := list Vector;
  Scene := unit;
  Matrix := unit;
  type := fun _ => "MESH"%string;
  matrix_world := fun _ _ => tt;
  evaluated_vertices := fun _ obj => obj;
  matmul := fun _ co => co;
  origin_set := fun c => c
|}.

(** The unit cube with its centre and a repeated corner added. *)
Definition cube_with_inner : list Vector :=
  unit_cube ++
  [ zero_vector;
    mkVector PyFloat.pos_half PyFloat.neg_half PyFloat.pos_half ].

(** A mesh whose first vertex has a NaN height, and the same mesh with the
    NaN in a later vertex. *)
Definition nan_height_first : list Vector :=
  [ mkVector PyFloat.zero PyFloat.zero PyFloat.nan;
    mkVector PyFloat.one PyFloat.one PyFloat.one ].

Definition nan_height_later : list Vector :=
  [ mkVector PyFloat.one PyFloat.one PyFloat.one;
    mkVector PyFloat.zero PyFloat.zero PyFloat.nan ].

End Shapes.

(** ** Reading an event trace *)

Section Traces.

Context {H : Host}.

Definition is_mesh (obj : Obj) : bool := String.eqb (type obj) "MESH".

(** The calls of the calculator in a trace, in order. *)
Fixpoint calc_calls (ev : list (Event Obj)) : list (Obj * bool) :=
  match ev with
  | [] => []
  | Calc obj use_bottom :: ev' => (obj, use_bottom) :: calc_calls ev'
  | _ :: ev' => calc_calls ev'
  end.

(** The number of calls of the host's relocation command in a trace. *)
Fixpoint origin_set_calls (ev : list (Event Obj)) : nat :=
  match ev with
  | [] => 0
  | OriginSet :: ev' => S (origin_set_calls ev')
  | _ :: ev' => origin_set_calls ev'
  end.

(** ** What the host command may be known to do *)





End Traces.


(** ** Registration and the panel *)

(** The host classes the add-on derives from. *)
Inductive BaseClass : Type :=
| OperatorBase     (* bpy.types.Operator *)
| PanelBase.       (* bpy.types.Panel *)

(** A class of the add-on as the host sees it when it is registered: its
    name, the host class it derives from, and the identifier and label it
    declares.  The remaining attributes play no part below. *)
Record PyClass : Type := mkPyClass {
  class_name : string;
  base : BaseClass;
  bl_idname : string;
  bl_label : string
}.

Definition SetOriginBottomOperator : PyClass :=
  mkPyClass "SetOriginBottomOperator" OperatorBase
            "object.origin_set_bottom" "Set Origin to Bottom".

Definition SetOriginTopOperator : PyClass :=
  mkPyClass "SetOriginTopOperator" OperatorBase
            "object.origin_set_top" "Set Origin to Top".

Definition OriginToolsPanel : PyClass :=
  mkPyClass "OriginToolsPanel" PanelBase
            "VIEW3D_PT_origin_tools" "Origin Tools".

Definition BaseClass_eq_dec (a b : BaseClass) : {a = b} + {a <> b}.
Proof. decide equality. Defined.

Definition PyClass_eq_dec (a b : PyClass) : {a = b} + {a <> b}.
Proof.
  decide equality; try apply string_dec. apply BaseClass_eq_dec.
Defined.

Definition PyClass_eqb (a b : PyClass) : bool :=
  if PyClass_eq_dec a b then true else false.

(** The class registry of the host.  [register_class] and
    [unregister_class] are [bpy.utils.register_class] and
    [bpy.utils.unregister_class]; they yield [None] when the host raises. *)
Class Registry : Type := {
  Reg : Type;
  register_class : Reg -> PyClass -> option Reg;
  unregister_class : Reg -> PyClass -> option Reg;
  is_registered : Reg -> PyClass -> bool
}.

Section Registration.

Context {R : Registry}.

(** [register()] *)
Definition register (r : Reg) : option Reg :=
  match register_class r SetOriginBottomOperator with
  | None => None
  | Some r1 =>
      match register_class r1 SetOriginTopOperator with
      | None => None
      | Some r2 => register_class r2 OriginToolsPanel
      end
  end.

(** [unregister()] *)
Definition unregister (r : Reg) : option Reg :=
  match unregister_class r SetOriginBottomOperator with
  | None => None
  | Some r1 =>
      match unregister_class r1 SetOriginTopOperator with
      | None => None
      | Some r2 => unregister_class r2 OriginToolsPanel
      end
  end.

(** Modelled from the spec: the registration hooks, by which the host is
    told which classes exist and by which they are withdrawn.  Registering
    a class that is not registered succeeds and makes it registered;
    unregistering a registered class succeeds and makes it unregistered;
    neither touches another class. *)
Definition registry_contract : Prop :=
  (forall r k, is_registered r k = false ->
     exists r', register_class r k = Some r' /\
                is_registered r' k = true /\
                forall k', k' <> k -> is_registered r' k' = is_registered r k') /\
  (forall r k, is_registered r k = true ->
     exists r', unregister_class r k = Some r' /\
                is_registered r' k = false /\
                forall k', k' <> k -> is_registered r' k' = is_registered r k').

End Registration.

(** [layout.operator(idname)] adds a button for the operator of that
    identifier to a layout, here the list of the identifiers of its
    buttons. *)
Definition layout_operator (layout : list string) (idname : string)
  : list string :=
  layout ++ [idname].

(** [OriginToolsPanel.draw] *)
Definition OriginToolsPanel_draw (layout : list string) : list string :=
  let layout := layout_operator layout "object.origin_set_bottom" in
  layout_operator layout "object.origin_set_top".

(** A registry that is the list of the registered classes and raises on
    registering a class twice or unregistering a class that is not
    registered. *)
Module ListRegistry.

Definition mem (r : list PyClass) (k : PyClass) : bool :=
  existsb (fun k' => PyClass_eqb k' k) r.

Definition add (r : list PyClass) (k : PyClass) : option (list PyClass) :=
  if mem r k then None else Some (k :: r).

Definition drop (r : list PyClass) (k : PyClass) : option (list PyClass) :=
  if mem r k then Some (filter (fun k' => negb (PyClass_eqb k' k)) r)
  else None.

Definition registry : Registry := {|
  Reg := list PyClass;
  register_class := add;
  unregister_class := drop;
  is_registered := mem
|}.

End ListRegistry.

(** ** Coordinates that span an interval *)

(** The items of [l] span the interval from [lo] to [hi]: both ends occur
    in [l] and every item lies between them. *)
Definition spans (l : list PyFloat.float) (lo hi : PyFloat.float) : Prop :=
  In lo l /\ In hi l /\
  forall v, In v l -> PyFloat.le lo v = true /\ PyFloat.le v hi = true.

(** [-a] *)
Definition neg (a : PyFloat.float) : PyFloat.float := SFopp a.

Definition is_positive_finite (a : PyFloat.float) : bool :=
  match a with S754_finite false _ _ => true | _ => false end.

(** * Facts about Python floats *)

Unset Implicit Arguments.

(** The literals are binary64 numbers. *)
Example literals_valid :
  forallb (valid_binary PyFloat.prec PyFloat.emax)
    [PyFloat.two; PyFloat.zero; PyFloat.pos_half; PyFloat.neg_half; PyFloat.one]
  = true.
Proof. reflexivity. Qed.

(** ** The order of [<] *)

Lemma lt_key (a b : PyFloat.float) :
  PyFloat.lt a b = true <->
  PyFloat.is_nan a = false /\ PyFloat.is_nan b = false /\
  key_lt (float_key a) (float_key b).
Proof.
  unfold PyFloat.lt, SFltb, SFcompare.
  destruct a as [sa|sa| |sa ma ea], b as [sb|sb| |sb mb eb];
    try destruct sa; try destruct sb; cbn;
    try (split; [ discriminate | intros (?&?&?); try discriminate; lia ]);
    try (split; [ intros _; repeat split; lia | reflexivity ]).
  - change (Pos.compare_cont Eq ma mb) with (Pos.compare ma mb).
    destruct (Z.compare_spec ea eb), (Pos.compare_spec ma mb); cbn;
      (split; [ try discriminate; intros _; repeat split; lia
              | intros (_&_&?); try reflexivity; lia ]).
  - change (Pos.compare_cont Eq ma mb) with (Pos.compare ma mb).
    destruct (Z.compare_spec ea eb), (Pos.compare_spec ma mb); cbn;
      (split; [ try discriminate; intros _; repeat split; lia
              | intros (_&_&?); try reflexivity; lia ]).
Qed.

Lemma le_key (a b : PyFloat.float) :
  PyFloat.le a b = true <->
  PyFloat.is_nan a = false /\ PyFloat.is_nan b = false /\
  ~ key_lt (float_key b) (float_key a).
Proof.
  unfold PyFloat.le, SFleb, SFcompare.
  destruct a as [sa|sa| |sa ma ea], b as [sb|sb| |sb mb eb];
    try destruct sa; try destruct sb; cbn;
    try (split; [ discriminate | intros (?&?&?); try discriminate; lia ]);
    try (split; [ intros _; repeat split; lia | reflexivity ]).
  - change (Pos.compare_cont Eq ma mb) with (Pos.compare ma mb).
    destruct (Z.compare_spec ea eb), (Pos.compare_spec ma mb); cbn;
      (split; [ try discriminate; intros _; repeat split; lia
              | intros (_&_&?); try reflexivity; lia ]).
  - change (Pos.compare_cont Eq ma mb) with (Pos.compare ma mb).
    destruct (Z.compare_spec ea eb), (Pos.compare_spec ma mb); cbn;
      (split; [ try discriminate; intros _; repeat split; lia
              | intros (_&_&?); try reflexivity; lia ]).
Qed.

Lemma key_eqv (a b : PyFloat.float) :
  PyFloat.is_nan a = false -> PyFloat.is_nan b = false ->
  float_key a = float_key b -> PyFloat.eqv a b.
Proof.
  unfold PyFloat.eqv.
  destruct a as [sa|sa| |sa ma ea], b as [sb|sb| |sb mb eb];
    try destruct sa; try destruct sb; cbn; intros Ha Hb Hk;
    try discriminate; try (left; reflexivity); try (right; split; reflexivity).
  - injection Hk as He Hm. left. f_equal; lia.
  - injection Hk as He Hm. left. f_equal; lia.
Qed.

Lemma eq_key (a b : PyFloat.float) :
  PyFloat.eq a b = true <->
  PyFloat.is_nan a = false /\ PyFloat.is_nan b = false /\
  float_key a = float_key b.
Proof.
  unfold PyFloat.eq, SFeqb, SFcompare.
  destruct a as [sa|sa| |sa ma ea], b as [sb|sb| |sb mb eb];
    try destruct sa; try destruct sb; cbn;
    try (split; [ discriminate | intros (?&?&?); discriminate ]);
    try (split; [ intros _; repeat split | reflexivity ]).
  - change (Pos.compare_cont Eq ma mb) with (Pos.compare ma mb).
    destruct (Z.compare_spec ea eb), (Pos.compare_spec ma mb); cbn;
      (split; [ try discriminate; intros _; repeat split; subst; reflexivity
              | intros (_&_&Hk); try reflexivity; injection Hk; lia ]).
  - change (Pos.compare_cont Eq ma mb) with (Pos.compare ma mb).
    destruct (Z.compare_spec ea eb), (Pos.compare_spec ma mb); cbn;
      (split; [ try discriminate; intros _; repeat split; subst; reflexivity
              | intros (_&_&Hk); try reflexivity; injection Hk; lia ]).
Qed.

(** On floats that are not NaN, equality as values is Python's [==]. *)
Lemma eq_eqv (a b : PyFloat.float) :
  PyFloat.is_nan a = false -> PyFloat.is_nan b = false ->
  (PyFloat.eq a b = true <-> PyFloat.eqv a b).
Proof.
  intros Ha Hb. rewrite eq_key. split.
  - intros (_ & _ & Hk). now apply key_eqv.
  - intros [->|[Hza Hzb]]; repeat split; trivial.
    destruct a; try discriminate. destruct b; try discriminate. reflexivity.
Qed.

Lemma lt_not_nan (a b : PyFloat.float) :
  PyFloat.lt a b = true -> PyFloat.is_nan a = false /\ PyFloat.is_nan b = false.
Proof. intros Hlt. apply lt_key in Hlt. tauto. Qed.

Lemma lt_nan_r (a b : PyFloat.float) :
  PyFloat.is_nan b = true -> PyFloat.lt a b = false.
Proof.
  intros Hb. destruct (PyFloat.lt a b) eqn:Hlt; [|reflexivity].
  apply lt_not_nan in Hlt. destruct Hlt as [_ Hn]. congruence.
Qed.

Lemma lt_nan_l (a b : PyFloat.float) :
  PyFloat.is_nan a = true -> PyFloat.lt a b = false.
Proof.
  intros Ha. destruct (PyFloat.lt a b) eqn:Hlt; [|reflexivity].
  apply lt_not_nan in Hlt. destruct Hlt as [Hn _]. congruence.
Qed.

Lemma lt_trans (a b c : PyFloat.float) :
  PyFloat.lt a b = true -> PyFloat.lt b c = true -> PyFloat.lt a c = true.
Proof.
  rewrite !lt_key. unfold key_lt.
  destruct (float_key a) as [[a1 a2] a3], (float_key b) as [[b1 b2] b3],
    (float_key c) as [[c1 c2] c3].
  intros (?&?&?) (?&?&?). repeat split; trivial; lia.
Qed.

(** Without a NaN in the middle, [a < c] leaves [a < b] or [b < c]. *)
Lemma lt_cotrans (a b c : PyFloat.float) :
  PyFloat.is_nan b = false ->
  PyFloat.lt a c = true -> PyFloat.lt a b = true \/ PyFloat.lt b c = true.
Proof.
  rewrite !lt_key. unfold key_lt.
  destruct (float_key a) as [[a1 a2] a3], (float_key b) as [[b1 b2] b3],
    (float_key c) as [[c1 c2] c3].
  intros Hb (?&?&?).
  assert (Hd : (a1 < b1 \/ (a1 = b1 /\ (a2 < b2 \/ (a2 = b2 /\ a3 < b3))))%Z \/
               (b1 < c1 \/ (b1 = c1 /\ (b2 < c2 \/ (b2 = c2 /\ b3 < c3))))%Z)
    by lia.
  destruct Hd; [left | right]; repeat split; trivial.
Qed.

Lemma not_lt_le (a b : PyFloat.float) :
  PyFloat.is_nan a = false -> PyFloat.is_nan b = false ->
  PyFloat.lt a b = false -> PyFloat.le b a = true.
Proof.
  intros Ha Hb Hlt. apply le_key. repeat split; trivial.
  intros Hk. assert (PyFloat.lt a b = true) by (apply lt_key; tauto).
  congruence.
Qed.

Lemma not_lt_eqv (a b : PyFloat.float) :
  PyFloat.is_nan a = false -> PyFloat.is_nan b = false ->
  PyFloat.lt a b = false -> PyFloat.lt b a = false -> PyFloat.eqv a b.
Proof.
  intros Ha Hb Hab Hba. apply key_eqv; trivial.
  assert (H1 : ~ key_lt (float_key a) (float_key b)).
  { intros Hk. assert (PyFloat.lt a b = true) by (apply lt_key; tauto).
    congruence. }
  assert (H2 : ~ key_lt (float_key b) (float_key a)).
  { intros Hk. assert (PyFloat.lt b a = true) by (apply lt_key; tauto).
    congruence. }
  unfold key_lt in H1, H2.
  destruct (float_key a) as [[a1 a2] a3], (float_key b) as [[b1 b2] b3].
  repeat f_equal; lia.
Qed.

Lemma lt_irrefl (a : PyFloat.float) : PyFloat.lt a a = false.
Proof.
  destruct (PyFloat.lt a a) eqn:Hlt; [|reflexivity].
  apply lt_key in Hlt. destruct Hlt as (_&_&Hk). unfold key_lt in Hk.
  destruct (float_key a) as [[a1 a2] a3]. lia.
Qed.

(** ** The built-ins [min] and [max] *)

Lemma no_nan_In (l : list PyFloat.float) (v : PyFloat.float) :
  PyFloat.no_nan l = true -> In v l -> PyFloat.is_nan v = false.
Proof.
  unfold PyFloat.no_nan. rewrite forallb_forall. intros Hl Hv.
  apply Hl in Hv. now apply negb_true_iff in Hv.
Qed.

Lemma min_from_In (l : list PyFloat.float) :
  forall best, In (PyFloat.min_from best l) (best :: l).
Proof.
  induction l as [|item l IH]; intros best; simpl.
  - now left.
  - destruct (IH (if PyFloat.lt item best then item else best)) as [Hm|Hm].
    + destruct (PyFloat.lt item best); rewrite <- Hm; auto.
    + auto.
Qed.

Lemma max_from_In (l : list PyFloat.float) :
  forall best, In (PyFloat.max_from best l) (best :: l).
Proof.
  induction l as [|item l IH]; intros best; simpl.
  - now left.
  - destruct (IH (if PyFloat.gt item best then item else best)) as [Hm|Hm].
    + destruct (PyFloat.gt item best); rewrite <- Hm; auto.
    + auto.
Qed.

(** Once the best item so far is a NaN, no later item replaces it. *)
Lemma min_from_nan (l : list PyFloat.float) :
  forall best, PyFloat.is_nan best = true -> PyFloat.min_from best l = best.
Proof.
  induction l as [|item l IH]; intros best Hn; simpl; [reflexivity|].
  rewrite (lt_nan_r item best Hn). now apply IH.
Qed.

Lemma max_from_nan (l : list PyFloat.float) :
  forall best, PyFloat.is_nan best = true -> PyFloat.max_from best l = best.
Proof.
  induction l as [|item l IH]; intros best Hn; simpl; [reflexivity|].
  unfold PyFloat.gt. rewrite (lt_nan_l best item Hn). now apply IH.
Qed.

Lemma min_from_lower (l : list PyFloat.float) :
  forall best v, In v (best :: l) ->
  PyFloat.lt v (PyFloat.min_from best l) = false.
Proof.
  induction l as [|item l IH]; intros best v Hin; simpl.
  - destruct Hin as [<-|[]]. apply lt_irrefl.
  - destruct (PyFloat.lt item best) eqn:Hib.
    + destruct Hin as [<-|Hin]; [|now apply IH].
      destruct (PyFloat.lt best (PyFloat.min_from item l)) eqn:Hbm; trivial.
      rewrite <- (IH item item (or_introl eq_refl)).
      symmetry. now apply lt_trans with best.
    + destruct Hin as [<-|[<-|Hin]]; [apply IH; now left | | apply IH; now right].
      destruct (PyFloat.is_nan best) eqn:Hn.
      * now rewrite min_from_nan.
      * destruct (PyFloat.lt item (PyFloat.min_from best l)) eqn:Him; trivial.
        destruct (lt_cotrans item best _ Hn Him) as [Hc|Hc]; [congruence|].
        rewrite (IH best best (or_introl eq_refl)) in Hc. discriminate.
Qed.

Lemma max_from_upper (l : list PyFloat.float) :
  forall best v, In v (best :: l) ->
  PyFloat.gt v (PyFloat.max_from best l) = false.
Proof.
  unfold PyFloat.gt.
  induction l as [|item l IH]; intros best v Hin; simpl.
  - destruct Hin as [<-|[]]. apply lt_irrefl.
  - unfold PyFloat.gt. destruct (PyFloat.lt best item) eqn:Hbi.
    + destruct Hin as [<-|Hin]; [|now apply IH].
      destruct (PyFloat.lt (PyFloat.max_from item l) best) eqn:Hmb; trivial.
      rewrite <- (IH item item (or_introl eq_refl)).
      symmetry. now apply lt_trans with best.
    + destruct Hin as [<-|[<-|Hin]]; [apply IH; now left | | apply IH; now right].
      destruct (PyFloat.is_nan best) eqn:Hn.
      * rewrite max_from_nan by trivial. exact Hbi.
      * destruct (PyFloat.lt (PyFloat.max_from best l) item) eqn:Hmi; trivial.
        destruct (lt_cotrans _ best item Hn Hmi) as [Hc|Hc]; [|congruence].
        rewrite (IH best best (or_introl eq_refl)) in Hc. discriminate.
Qed.

Lemma min_from_is_min (best : PyFloat.float) (l : list PyFloat.float) :
  is_min (best :: l) (PyFloat.min_from best l).
Proof.
  split; [apply min_from_In|]. split; [apply min_from_lower|].
  intros Hn v Hv. apply not_lt_le.
  - now apply (no_nan_In _ _ Hn).
  - apply (no_nan_In _ _ Hn), min_from_In.
  - now apply min_from_lower.
Qed.

Lemma max_from_is_max (best : PyFloat.float) (l : list PyFloat.float) :
  is_max (best :: l) (PyFloat.max_from best l).
Proof.
  split; [apply max_from_In|]. split; [apply max_from_upper|].
  intros Hn v Hv. apply not_lt_le.
  - apply (no_nan_In _ _ Hn), max_from_In.
  - now apply (no_nan_In _ _ Hn).
  - now apply (max_from_upper l best v).
Qed.

(** Two minima of lists with the same items, none of them a NaN, are equal
    as values; likewise two maxima. *)
Lemma is_min_perm (l l' : list PyFloat.float) (m m' : PyFloat.float) :
  Permutation l l' -> PyFloat.no_nan l = true ->
  is_min l m -> is_min l' m' -> PyFloat.eqv m m'.
Proof.
  intros Hp Hn (Hm & Hlow & _) (Hm' & Hlow' & _).
  apply not_lt_eqv.
  - now apply (no_nan_In _ _ Hn).
  - apply (no_nan_In _ _ Hn).
    now apply Permutation_in with l'; [apply Permutation_sym|].
  - apply Hlow'. now apply Permutation_in with l.
  - apply Hlow. now apply Permutation_in with l'; [apply Permutation_sym|].
Qed.

Lemma is_max_perm (l l' : list PyFloat.float) (m m' : PyFloat.float) :
  Permutation l l' -> PyFloat.no_nan l = true ->
  is_max l m -> is_max l' m' -> PyFloat.eqv m m'.
Proof.
  intros Hp Hn (Hm & Hup & _) (Hm' & Hup' & _).
  apply not_lt_eqv.
  - now apply (no_nan_In _ _ Hn).
  - apply (no_nan_In _ _ Hn).
    now apply Permutation_in with l'; [apply Permutation_sym|].
  - apply (Hup m'). now apply Permutation_in with l'; [apply Permutation_sym|].
  - apply (Hup' m). now apply Permutation_in with l.
Qed.

(** ** Addition and halving respect equality as values *)

Lemma add_eqv (a a' b b' : PyFloat.float) :
  PyFloat.eqv a a' -> PyFloat.eqv b b' ->
  PyFloat.eqv (PyFloat.add a b) (PyFloat.add a' b').
Proof.
  unfold PyFloat.eqv.
  intros [->|[Ha Ha']] [->|[Hb Hb']]; [now left | | | ].
  - destruct b as [sb| | |]; try discriminate.
    destruct b' as [sb'| | |]; try discriminate.
    destruct a' as [sa|sa| |sa ma ea]; cbn;
      try destruct sa; destruct sb, sb'; cbn; auto.
  - destruct a as [sa| | |]; try discriminate.
    destruct a' as [sa'| | |]; try discriminate.
    destruct b' as [sb|sb| |sb mb eb]; cbn;
      try destruct sb; destruct sa, sa'; cbn; auto.
  - destruct a as [sa| | |]; try discriminate.
    destruct a' as [sa'| | |]; try discriminate.
    destruct b as [sb| | |]; try discriminate.
    destruct b' as [sb'| | |]; try discriminate.
    destruct sa, sa', sb, sb'; cbn; auto.
Qed.

Lemma half_eqv (a a' : PyFloat.float) :
  PyFloat.eqv a a' -> PyFloat.eqv (PyFloat.half a) (PyFloat.half a').
Proof.
  unfold PyFloat.eqv.
  intros [->|[Ha Ha']]; [now left|].
  destruct a as [sa| | |]; try discriminate.
  destruct a' as [sa'| | |]; try discriminate.
  right. split; reflexivity.
Qed.

Lemma eqv_refl (a : PyFloat.float) : PyFloat.eqv a a.
Proof. now left. Qed.

(** A float that is not a zero is equal as a value to itself only. *)
Lemma eqv_nonzero (a b : PyFloat.float) :
  PyFloat.is_zero a = false -> PyFloat.eqv a b -> b = a.
Proof. intros Hz [->|[Ha _]]; [reflexivity | congruence]. Qed.

(** * Facts about the calculator and the operators *)

(** ** The calculator *)

(** On a list with a first vertex the calculator raises nothing and builds
    its point from the six scans. *)
Lemma origin_of_verts_cons (v : Vector) (vs : list Vector) (use_bottom : bool) :
  origin_of_verts (v :: vs) use_bottom =
  Ok (Some (mkVector
    (PyFloat.half (PyFloat.add (PyFloat.min_from (x v) (map x vs))
                               (PyFloat.max_from (x v) (map x vs))))
    (PyFloat.half (PyFloat.add (PyFloat.min_from (y v) (map y vs))
                               (PyFloat.max_from (y v) (map y vs))))
    (if use_bottom then PyFloat.min_from (z v) (map z vs)
     else PyFloat.max_from (z v) (map z vs)))).
Proof. reflexivity. Qed.

Lemma origin_of_verts_total (vs : list Vector) (use_bottom : bool) :
  origin_of_verts vs use_bottom = Ok None /\ vs = [] \/
  exists p, origin_of_verts vs use_bottom = Ok (Some p) /\ vs <> [].
Proof.
  destruct vs as [|v vs].
  - left. split; reflexivity.
  - right. rewrite origin_of_verts_cons. eexists. split; [reflexivity|discriminate].
Qed.

Section OperatorFacts.

Context {H : Host}.

Lemma world_verts_nil (s : Scene) (obj : Obj) :
  world_verts s obj = [] <-> evaluated_vertices s obj = [].
Proof.
  unfold world_verts. split.
  - apply map_eq_nil.
  - intros ->. reflexivity.
Qed.

Lemma calculate_origin_point_total (s : Scene) (obj : Obj) (use_bottom : bool) :
  calculate_origin_point s obj use_bottom = Ok None /\ world_verts s obj = [] \/
  exists p, calculate_origin_point s obj use_bottom = Ok (Some p) /\
            world_verts s obj <> [].
Proof. apply origin_of_verts_total. Qed.

(** ** One turn of the loop *)

Lemma operator_body_turn (use_bottom : bool) (obj : Obj) (c : Ctx Obj Scene) :
  operator_body use_bottom obj c = turn use_bottom obj c.
Proof.
  unfold turn.
  destruct use_bottom; cbn;
    [unfold SetOriginBottomOperator_body | unfold SetOriginTopOperator_body];
    destruct (String.eqb (type obj) "MESH"); cbn; trivial;
    unfold mbind, call_calculate_origin_point;
    destruct (calculate_origin_point (scene c) obj _) as [[p|]|e]; reflexivity.
Qed.

Lemma relocate_turn (use_bottom : bool) (obj : Obj) (c : Ctx Obj Scene) :
  relocate use_bottom obj c = turn use_bottom obj c.
Proof.
  unfold turn, relocate.
  destruct (String.eqb (type obj) "MESH"); cbn; trivial.
  unfold mbind, call_calculate_origin_point.
  destruct (calculate_origin_point (scene c) obj _) as [[p|]|e]; reflexivity.
Qed.

Lemma turn_total (use_bottom : bool) (obj : Obj) (c : Ctx Obj Scene) :
  exists c' ev, turn use_bottom obj c = Ok (tt, c', ev).
Proof.
  unfold turn. destruct (String.eqb (type obj) "MESH"); [|eauto].
  destruct (calculate_origin_point_total (scene c) obj use_bottom)
    as [[-> _]|(p & -> & _)]; eauto.
Qed.

(** ** The loop *)

Lemma for_each_ext (f g : Obj -> M Obj Scene unit) (objs : list Obj) :
  (forall obj c, f obj c = g obj c) ->
  forall c, for_each objs f c = for_each objs g c.
Proof.
  intros Hfg. induction objs as [|obj objs IH]; intros c; cbn; trivial.
  unfold mbind. rewrite Hfg. destruct (g obj c) as [[[u c1] ev1]|e]; trivial.
  now rewrite IH.
Qed.

Lemma for_each_cons (body : Obj -> M Obj Scene unit) (obj : Obj)
  (objs : list Obj) (c c1 c2 : Ctx Obj Scene) (ev1 ev2 : list (Event Obj)) :
  body obj c = Ok (tt, c1, ev1) ->
  for_each objs body c1 = Ok (tt, c2, ev2) ->
  for_each (obj :: objs) body c = Ok (tt, c2, ev1 ++ ev2).
Proof. intros H1 H2. cbn. unfold mbind. now rewrite H1, H2. Qed.

Lemma for_each_app (body : Obj -> M Obj Scene unit) (l1 l2 : list Obj) :
  forall (c c1 c2 : Ctx Obj Scene) (ev1 ev2 : list (Event Obj)),
  for_each l1 body c = Ok (tt, c1, ev1) ->
  for_each l2 body c1 = Ok (tt, c2, ev2) ->
  for_each (l1 ++ l2) body c = Ok (tt, c2, ev1 ++ ev2).
Proof.
  induction l1 as [|obj l1 IH]; intros c c1 c2 ev1 ev2 H1 H2.
  - cbn in H1. injection H1 as <- <-. exact H2.
  - cbn in H1 |- *. unfold mbind in H1 |- *.
    destruct (body obj c) as [[[u c0] ev0]|e]; [|discriminate].
    destruct (for_each l1 body c0) as [[[u' c0'] ev0']|e] eqn:Hl1; [|discriminate].
    destruct u'. injection H1 as Hc Hev. subst c1 ev1.
    rewrite (IH c0 c0' c2 ev0' ev2 Hl1 H2). now rewrite app_assoc.
Qed.

Lemma for_each_total (use_bottom : bool) (objs : list Obj) :
  forall c, exists c' ev,
    for_each objs (operator_body use_bottom) c = Ok (tt, c', ev).
Proof.
  induction objs as [|obj objs IH]; intros c.
  - exists c, []. reflexivity.
  - destruct (turn_total use_bottom obj c) as (c1 & ev1 & H1).
    rewrite <- operator_body_turn in H1.
    destruct (IH c1) as (c2 & ev2 & H2).
    exists c2, (ev1 ++ ev2). now apply for_each_cons with c1.
Qed.

(** ** A whole invocation *)

Lemma Vector_copy_id (v : Vector) : Vector_copy v = v.
Proof. now destruct v. Qed.

(** An invocation is its loop followed by the two restoring assignments. *)
Lemma operator_run (use_bottom : bool) (c c' : Ctx Obj Scene)
  (ev : list (Event Obj)) :
  for_each (selected_objects c) (operator_body use_bottom) c = Ok (tt, c', ev) ->
  operator use_bottom c =
  Ok (FINISHED,
      mkCtx (cursor_location c) (active_object c) (selected_objects c') (scene c'),
      ev ++ restore_events c).
Proof.
  intros Hloop.
  destruct use_bottom; cbn in Hloop |- *;
    [unfold SetOriginBottomOperator_execute | unfold SetOriginTopOperator_execute];
    unfold mbind, get_cursor_location, get_active_object, get_selected_objects;
    rewrite Hloop; cbn; rewrite Vector_copy_id; reflexivity.
Qed.

Lemma batch_relocation_run (use_bottom : bool) (c c' : Ctx Obj Scene)
  (ev : list (Event Obj)) :
  for_each (selected_objects c) (operator_body use_bottom) c = Ok (tt, c', ev) ->
  batch_relocation use_bottom c =
  Ok (FINISHED,
      mkCtx (cursor_location c) (active_object c) (selected_objects c') (scene c'),
      ev ++ restore_events c).
Proof.
  intros Hloop. unfold batch_relocation.
  rewrite (for_each_ext (relocate use_bottom) (operator_body use_bottom)).
  - now rewrite Hloop.
  - intros obj c0. now rewrite relocate_turn, operator_body_turn.
Qed.

End OperatorFacts.

(** ** The turn of one object within an invocation *)

Section BatchFacts.

Context {H : Host}.

(** When the selection is [l1 ++ obj :: l2] and the loop over [l1] has left
    the context [c1], the invocation is that loop, the turn of [obj] in
    [c1], the loop over [l2] and the restoration. *)
Lemma operator_visit (use_bottom : bool) (c c1 : Ctx Obj Scene)
  (l1 l2 : list Obj) (obj : Obj) (ev1 : list (Event Obj)) :
  selected_objects c = l1 ++ obj :: l2 ->
  for_each l1 (operator_body use_bottom) c = Ok (tt, c1, ev1) ->
  exists c2 ev c3 ev3,
    turn use_bottom obj c1 = Ok (tt, c2, ev) /\
    for_each l2 (operator_body use_bottom) c2 = Ok (tt, c3, ev3) /\
    operator use_bottom c =
    Ok (FINISHED,
        mkCtx (cursor_location c) (active_object c)
              (selected_objects c3) (scene c3),
        ev1 ++ ev ++ ev3 ++ restore_events c).
Proof.
  intros Hsel Hl1.
  destruct (turn_total use_bottom obj c1) as (c2 & ev & Hturn).
  destruct (for_each_total use_bottom l2 c2) as (c3 & ev3 & Hl2).
  exists c2, ev, c3, ev3. split; [exact Hturn|]. split; [exact Hl2|].
  rewrite (operator_run use_bottom c c3 (ev1 ++ ev ++ ev3)).
  - now rewrite <- !app_assoc.
  - rewrite Hsel. apply for_each_app with c1; trivial.
    apply for_each_cons with c2; trivial.
    now rewrite operator_body_turn.
Qed.

Lemma turn_non_mesh (use_bottom : bool) (obj : Obj) (c : Ctx Obj Scene) :
  type obj <> "MESH"%string -> turn use_bottom obj c = Ok (tt, c, []).
Proof.
  intros Ht. unfold turn. apply String.eqb_neq in Ht. now rewrite Ht.
Qed.

Lemma turn_mesh_none (use_bottom : bool) (obj : Obj) (c : Ctx Obj Scene) :
  type obj = "MESH"%string ->
  calculate_origin_point (scene c) obj use_bottom = Ok None ->
  turn use_bottom obj c = Ok (tt, c, [Calc obj use_bottom]).
Proof.
  intros Ht Hc. unfold turn. apply String.eqb_eq in Ht. now rewrite Ht, Hc.
Qed.

Lemma turn_mesh_some (use_bottom : bool) (obj : Obj) (c : Ctx Obj Scene)
  (p : Vector) :
  type obj = "MESH"%string ->
  calculate_origin_point (scene c) obj use_bottom = Ok (Some p) ->
  turn use_bottom obj c =
  Ok (tt, origin_set (relocation_ctx c obj p),
      relocation_events use_bottom obj p).
Proof.
  intros Ht Hc. unfold turn. apply String.eqb_eq in Ht. now rewrite Ht, Hc.
Qed.

(** Every event of a turn that is about an object is about a mesh that
    has a vertex or is being asked for its point. *)
Lemma turn_event_object (use_bottom : bool) (obj : Obj)
  (c c' : Ctx Obj Scene) (ev : list (Event Obj)) :
  turn use_bottom obj c = Ok (tt, c', ev) ->
  forall e o, In e ev -> event_object e = Some o ->
  o = obj /\ type obj = "MESH"%string.
Proof.
  unfold turn. destruct (String.eqb (type obj) "MESH") eqn:Ht.
  - apply String.eqb_eq in Ht.
    destruct (calculate_origin_point (scene c) obj use_bottom) as [[p|]|e0];
      [| |discriminate]; intros Heq; injection Heq as _ <-;
      intros e o He Ho; cbn in He;
      repeat (destruct He as [<-|He]; [cbn in Ho; try discriminate;
                                       injection Ho as <-; now split|]);
      contradiction.
  - intros Heq. injection Heq as _ <-. intros e o [].
Qed.

Lemma for_each_event_object (use_bottom : bool) (objs : list Obj) :
  forall (c c' : Ctx Obj Scene) (ev : list (Event Obj)),
  for_each objs (operator_body use_bottom) c = Ok (tt, c', ev) ->
  forall e o, In e ev -> event_object e = Some o -> type o = "MESH"%string.
Proof.
  induction objs as [|obj objs IH]; intros c c' ev Hrun e o He Ho.
  - cbn in Hrun. injection Hrun as _ <-. destruct He.
  - cbn in Hrun. unfold mbind in Hrun. rewrite operator_body_turn in Hrun.
    destruct (turn use_bottom obj c) as [[[u c1] ev1]|e1] eqn:Hturn;
      [|discriminate].
    destruct (for_each objs (operator_body use_bottom) c1)
      as [[[u2 c2] ev2]|e2] eqn:Hrest; [|discriminate].
    destruct u, u2. injection Hrun as _ <-.
    apply in_app_or in He. destruct He as [He|He].
    + destruct (turn_event_object _ _ _ _ _ Hturn e o He Ho) as [-> Ht].
      exact Ht.
    + exact (IH c1 c2 ev2 Hrest e o He Ho).
Qed.

(** What the host keeps for an object that no turn relocates.  [observe]
    is anything the host command leaves alone on objects other than the
    active one, such as their origins. *)
Lemma for_each_keeps (A : Type) (observe : Scene -> Obj -> A)
  (use_bottom : bool) (obj : Obj) :
  (forall c, active_object c <> Some obj ->
             observe (scene (origin_set c)) obj = observe (scene c) obj) ->
  type obj <> "MESH"%string \/ (forall s, evaluated_vertices s obj = []) ->
  forall (objs : list Obj) (c c' : Ctx Obj Scene) (ev : list (Event Obj)),
  for_each objs (operator_body use_bottom) c = Ok (tt, c', ev) ->
  observe (scene c') obj = observe (scene c) obj.
Proof.
  intros Hframe Hinel.
  induction objs as [|o objs IH]; intros c c' ev Hrun.
  - cbn in Hrun. now injection Hrun as <- _.
  - cbn in Hrun. unfold mbind in Hrun. rewrite operator_body_turn in Hrun.
    destruct (turn use_bottom o c) as [[[u c1] ev1]|e1] eqn:Hturn;
      [|discriminate].
    destruct (for_each objs (operator_body use_bottom) c1)
      as [[[u2 c2] ev2]|e2] eqn:Hrest; [|discriminate].
    destruct u, u2. injection Hrun as <- _.
    rewrite (IH c1 c2 ev2 Hrest).
    unfold turn in Hturn.
    destruct (String.eqb (type o) "MESH") eqn:Ht;
      [|now injection Hturn as <- _].
    apply String.eqb_eq in Ht.
    destruct (calculate_origin_point_total (scene c) o use_bottom)
      as [[Hc _]|(p & Hc & Hne)]; rewrite Hc in Hturn;
      [now injection Hturn as <- _|].
    injection Hturn as <- _.
    rewrite Hframe; [reflexivity|].
    cbn. intros Heq. injection Heq as ->.
    destruct Hinel as [Hnm|Hnv]; [contradiction|].
    apply Hne, world_verts_nil, Hnv.
Qed.

End BatchFacts.

(** * The calculator: bounding box, order of the vertices, unit cube *)

Lemma min_from_perm (b b' : PyFloat.float) (t t' : list PyFloat.float) :
  Permutation (b :: t) (b' :: t') -> PyFloat.no_nan (b :: t) = true ->
  PyFloat.eqv (PyFloat.min_from b t) (PyFloat.min_from b' t').
Proof.
  intros Hp Hn.
  apply (is_min_perm (b :: t) (b' :: t')); trivial; apply min_from_is_min.
Qed.

Lemma max_from_perm (b b' : PyFloat.float) (t t' : list PyFloat.float) :
  Permutation (b :: t) (b' :: t') -> PyFloat.no_nan (b :: t) = true ->
  PyFloat.eqv (PyFloat.max_from b t) (PyFloat.max_from b' t').
Proof.
  intros Hp Hn.
  apply (is_max_perm (b :: t) (b' :: t')); trivial; apply max_from_is_max.
Qed.







(** C9.  When the world-space vertices of an object are the eight corners
    of the unit cube centred at the world origin, in whatever order, the
    calculator returns (0, 0, -0.5) in BOTTOM mode and (0, 0, 0.5) in TOP
    mode. *)
Theorem calculate_origin_point_unit_cube {H : Host} (s : Scene) (obj : Obj) :
  Permutation unit_cube (world_verts s obj) ->
  calculate_origin_point s obj true =
    Ok (Some (mkVector PyFloat.zero PyFloat.zero PyFloat.neg_half)) /\
  calculate_origin_point s obj false =
    Ok (Some (mkVector PyFloat.zero PyFloat.zero PyFloat.pos_half)).
Proof.
  intros Hp. unfold calculate_origin_point.
  destruct (world_verts s obj) as [|v vs].
  - apply Permutation_sym, Permutation_nil in Hp. discriminate.
  - pose proof (Permutation_map x Hp) as Hpx.
    pose proof (Permutation_map y Hp) as Hpy.
    pose proof (Permutation_map z Hp) as Hpz.
    cbn [map unit_cube x y z] in Hpx, Hpy, Hpz.
    rewrite !origin_of_verts_cons.
    pose proof (min_from_perm _ _ _ _ Hpx eq_refl) as Hminx.
    pose proof (max_from_perm _ _ _ _ Hpx eq_refl) as Hmaxx.
    pose proof (min_from_perm _ _ _ _ Hpy eq_refl) as Hminy.
    pose proof (max_from_perm _ _ _ _ Hpy eq_refl) as Hmaxy.
    pose proof (min_from_perm _ _ _ _ Hpz eq_refl) as Hminz.
    pose proof (max_from_perm _ _ _ _ Hpz eq_refl) as Hmaxz.
    apply eqv_nonzero in Hminx, Hmaxx, Hminy, Hmaxy, Hminz, Hmaxz;
      try reflexivity.
    rewrite Hminx, Hmaxx, Hminy, Hmaxy, Hminz, Hmaxz.
    split; reflexivity.
Qed.

Lemma calculate_origin_point_unit_cube_witness :
  Permutation unit_cube (@world_verts Demo.host [] Demo.cube_reversed) /\
  @calculate_origin_point Demo.host [] Demo.cube_reversed true =
    Ok (Some (mkVector PyFloat.zero PyFloat.zero PyFloat.neg_half)) /\
  @calculate_origin_point Demo.host [] Demo.cube_reversed false =
    Ok (Some (mkVector PyFloat.zero PyFloat.zero PyFloat.pos_half)).
Proof.
  assert (Hp : Permutation unit_cube (@world_verts Demo.host [] Demo.cube_reversed)).
  { exact (Permutation_rev unit_cube). }
  split; [exact Hp|].
  exact (@calculate_origin_point_unit_cube Demo.host [] Demo.cube_reversed Hp).
Defined.

(** * The operators *)

(** C2.  In an invocation of either operator, a selected mesh object is
    skipped (its turn causes no cursor move and no relocation call, and
    leaves the context as it was) exactly when the calculator returns
    [None] for it; and a mesh with at least one vertex has the cursor set
    to its computed point, is made active, and has the host's relocation
    command called in that context. *)
Theorem mesh_skipped_iff_no_point {H : Host} (use_bottom : bool)
  (c c1 : Ctx Obj Scene) (l1 l2 : list Obj) (obj : Obj)
  (ev1 : list (Event Obj)) :
  selected_objects c = l1 ++ obj :: l2 ->
  for_each l1 (operator_body use_bottom) c = Ok (tt, c1, ev1) ->
  type obj = "MESH"%string ->
  exists c2 ev c3 ev3 c',
    operator_body use_bottom obj c1 = Ok (tt, c2, ev) /\
    for_each l2 (operator_body use_bottom) c2 = Ok (tt, c3, ev3) /\
    operator use_bottom c =
      Ok (FINISHED, c', ev1 ++ ev ++ ev3 ++ restore_events c) /\
    (skipped ev = true <->
     calculate_origin_point (scene c1) obj use_bottom = Ok None) /\
    (skipped ev = true -> c2 = c1 /\ ev = [Calc obj use_bottom]) /\
    (evaluated_vertices (scene c1) obj <> [] ->
     exists p,
       calculate_origin_point (scene c1) obj use_bottom = Ok (Some p) /\
       ev = relocation_events use_bottom obj p /\
       c2 = origin_set (relocation_ctx c1 obj p)).
Proof.
  intros Hsel Hl1 Ht.
  destruct (operator_visit use_bottom c c1 l1 l2 obj ev1 Hsel Hl1)
    as (c2 & ev & c3 & ev3 & Hturn & Hl2 & Hop).
  exists c2, ev, c3, ev3. eexists.
  rewrite operator_body_turn.
  split; [exact Hturn|]. split; [exact Hl2|]. split; [exact Hop|].
  destruct (calculate_origin_point_total (scene c1) obj use_bottom)
    as [[Hc Hw]|(p & Hc & Hw)].
  - rewrite (turn_mesh_none use_bottom obj c1 Ht Hc) in Hturn.
    injection Hturn as <- <-. rewrite Hc.
    split; [split; reflexivity|]. split; [split; reflexivity|].
    intros Hne. apply world_verts_nil in Hw. contradiction.
  - rewrite (turn_mesh_some use_bottom obj c1 p Ht Hc) in Hturn.
    injection Hturn as <- <-. rewrite Hc.
    split; [split; discriminate|]. split; [discriminate|].
    intros _. exists p. repeat split.
Qed.

Lemma mesh_skipped_iff_no_point_witness :
  selected_objects Demo.mixed = [Demo.empty_mesh] ++ Demo.cube :: [Demo.light] /\
  for_each [Demo.empty_mesh] (@operator_body Demo.host true) Demo.mixed =
    Ok (tt, Demo.mixed, [Calc Demo.empty_mesh true]) /\
  @type Demo.host Demo.cube = "MESH"%string /\
  exists c2 ev c3 ev3 c',
    @operator_body Demo.host true Demo.cube Demo.mixed = Ok (tt, c2, ev) /\
    for_each [Demo.light] (@operator_body Demo.host true) c2 = Ok (tt, c3, ev3) /\
    @operator Demo.host true Demo.mixed =
      Ok (FINISHED, c',
          [Calc Demo.empty_mesh true] ++ ev ++ ev3 ++
          @restore_events Demo.host Demo.mixed) /\
    (skipped ev = true <->
     @calculate_origin_point Demo.host (scene Demo.mixed) Demo.cube true = Ok None) /\
    (skipped ev = true -> c2 = Demo.mixed /\ ev = [Calc Demo.cube true]) /\
    (@evaluated_vertices Demo.host (scene Demo.mixed) Demo.cube <> [] ->
     exists p,
       @calculate_origin_point Demo.host (scene Demo.mixed) Demo.cube true =
         Ok (Some p) /\
       ev = @relocation_events Demo.host true Demo.cube p /\
       c2 = @origin_set Demo.host (@relocation_ctx Demo.host Demo.mixed Demo.cube p)).
Proof.
  split; [reflexivity|]. split; [reflexivity|]. split; [reflexivity|].
  apply (@mesh_skipped_iff_no_point Demo.host true Demo.mixed Demo.mixed
           [Demo.empty_mesh] [Demo.light] Demo.cube [Calc Demo.empty_mesh true]);
    reflexivity.
Defined.

(** The claim of C3 as it stands fails: a mesh whose single vertex sits at
    the world origin has the zero vector as its computed point, and the
    operator still moves the cursor there, makes the object active and
    calls the relocation command, after which the host holds a new origin
    for the object. *)
Lemma zero_origin_point_not_skipped :
  @type Demo.host Demo.dot = "MESH"%string /\
  @evaluated_vertices Demo.host [] Demo.dot <> [] /\
  @calculate_origin_point Demo.host [] Demo.dot true = Ok (Some zero_vector) /\
  is_zero_vector zero_vector = true /\
  @operator Demo.host true (Demo.ctx None [Demo.dot]) =
    Ok (FINISHED,
        mkCtx (mkVector PyFloat.one PyFloat.one PyFloat.one) None [Demo.dot]
              [(Demo.dot, zero_vector)],
        @relocation_events Demo.host true Demo.dot zero_vector ++
        @restore_events Demo.host (Demo.ctx None [Demo.dot])) /\
  @skipped Demo.host (@relocation_events Demo.host true Demo.dot zero_vector)
    = false /\
  Demo.origin [] Demo.dot = None /\
  Demo.origin [(Demo.dot, zero_vector)] Demo.dot = Some zero_vector.
Proof.
  split; [reflexivity|]. split; [discriminate|].
  repeat split; reflexivity.
Qed.

(** C3, as amended.  A mesh whose computed point is exactly the zero vector
    is not skipped: the truth test of the source holds for every vector, so
    the turn of the object moves the cursor to the zero vector, makes the
    object active and calls the relocation command, like the turn of any
    other mesh that has a vertex. *)
Theorem zero_origin_point_relocated {H : Host} (use_bottom : bool)
  (c c1 : Ctx Obj Scene) (l1 l2 : list Obj) (obj : Obj)
  (ev1 : list (Event Obj)) (p : Vector) :
  selected_objects c = l1 ++ obj :: l2 ->
  for_each l1 (operator_body use_bottom) c = Ok (tt, c1, ev1) ->
  type obj = "MESH"%string ->
  calculate_origin_point (scene c1) obj use_bottom = Ok (Some p) ->
  is_zero_vector p = true ->
  truth (Some p) = true /\
  operator_body use_bottom obj c1 =
    Ok (tt, origin_set (relocation_ctx c1 obj p),
        relocation_events use_bottom obj p) /\
  skipped (relocation_events use_bottom obj p) = false /\
  exists c3 ev3 c',
    for_each l2 (operator_body use_bottom)
             (origin_set (relocation_ctx c1 obj p)) = Ok (tt, c3, ev3) /\
    operator use_bottom c =
      Ok (FINISHED, c',
          ev1 ++ relocation_events use_bottom obj p ++ ev3 ++ restore_events c).
Proof.
  intros Hsel Hl1 Ht Hc _.
  destruct (operator_visit use_bottom c c1 l1 l2 obj ev1 Hsel Hl1)
    as (c2 & ev & c3 & ev3 & Hturn & Hl2 & Hop).
  rewrite (turn_mesh_some use_bottom obj c1 p Ht Hc) in Hturn.
  injection Hturn as <- <-.
  split; [reflexivity|]. split.
  - rewrite operator_body_turn. now apply turn_mesh_some.
  - split; [reflexivity|]. exists c3, ev3. eexists. split; [exact Hl2|exact Hop].
Qed.

Lemma zero_origin_point_relocated_witness :
  selected_objects (Demo.ctx None [Demo.dot]) = [] ++ Demo.dot :: [] /\
  for_each [] (@operator_body Demo.host false) (Demo.ctx None [Demo.dot]) =
    Ok (tt, Demo.ctx None [Demo.dot], []) /\
  @type Demo.host Demo.dot = "MESH"%string /\
  @calculate_origin_point Demo.host [] Demo.dot false = Ok (Some zero_vector) /\
  is_zero_vector zero_vector = true /\
  truth (Some zero_vector) = true /\
  @operator_body Demo.host false Demo.dot (Demo.ctx None [Demo.dot]) =
    Ok (tt,
        @origin_set Demo.host
          (@relocation_ctx Demo.host (Demo.ctx None [Demo.dot]) Demo.dot zero_vector),
        @relocation_events Demo.host false Demo.dot zero_vector) /\
  @skipped Demo.host (@relocation_events Demo.host false Demo.dot zero_vector)
    = false /\
  exists c3 ev3 c',
    for_each [] (@operator_body Demo.host false)
      (@origin_set Demo.host
         (@relocation_ctx Demo.host (Demo.ctx None [Demo.dot]) Demo.dot zero_vector))
      = Ok (tt, c3, ev3) /\
    @operator Demo.host false (Demo.ctx None [Demo.dot]) =
      Ok (FINISHED, c',
          [] ++ @relocation_events Demo.host false Demo.dot zero_vector ++ ev3 ++
          @restore_events Demo.host (Demo.ctx None [Demo.dot])).
Proof.
  split; [reflexivity|]. split; [reflexivity|]. split; [reflexivity|].
  split; [reflexivity|]. split; [reflexivity|].
  apply (@zero_origin_point_relocated Demo.host false
           (Demo.ctx None [Demo.dot]) (Demo.ctx None [Demo.dot])
           [] [] Demo.dot [] zero_vector); reflexivity.
Defined.

(** C4.  Whatever the selection, an invocation of either operator returns
    with the cursor location and the active object it started with. *)
Theorem ambient_state_restored {H : Host} (use_bottom : bool)
  (c : Ctx Obj Scene) :
  exists r c' ev,
    operator use_bottom c = Ok (r, c', ev) /\
    cursor_location c' = cursor_location c /\
    active_object c' = active_object c.
Proof.
  destruct (for_each_total use_bottom (selected_objects c) c)
    as (c1 & ev & Hloop).
  do 3 eexists. split; [exact (operator_run use_bottom c c1 ev Hloop)|].
  split; reflexivity.
Qed.



(** C6.  For an object whose type is not mesh, a turn of either loop does
    nothing at all: no call of the calculator, no cursor move, no change of
    the active object, no relocation call, and the context is left as it
    was.  In a whole invocation, no event before the final restoration is
    about such an object: the calculator is never called on it and it is
    never made active. *)
Theorem non_mesh_untouched {H : Host} (use_bottom : bool) (obj : Obj) :
  type obj <> "MESH"%string ->
  (forall c, operator_body use_bottom obj c = Ok (tt, c, [])) /\
  (forall c, exists c' ev,
     operator use_bottom c = Ok (FINISHED, c', ev ++ restore_events c) /\
     forall e, In e ev -> event_object e <> Some obj).
Proof.
  intros Ht. split.
  - intros c. rewrite operator_body_turn. now apply turn_non_mesh.
  - intros c.
    destruct (for_each_total use_bottom (selected_objects c) c)
      as (c1 & ev & Hloop).
    eexists. exists ev.
    split; [exact (operator_run use_bottom c c1 ev Hloop)|].
    intros e He Ho. apply Ht.
    exact (for_each_event_object use_bottom _ c c1 ev Hloop e obj He Ho).
Qed.

Lemma non_mesh_untouched_witness :
  @type Demo.host Demo.light <> "MESH"%string /\
  (forall c, @operator_body Demo.host true Demo.light c = Ok (tt, c, [])) /\
  (forall c, exists c' ev,
     @operator Demo.host true c =
       Ok (FINISHED, c', ev ++ @restore_events Demo.host c) /\
     forall e, In e ev -> @event_object Demo.host e <> Some Demo.light).
Proof.
  split; [discriminate|].
  apply (@non_mesh_untouched Demo.host true Demo.light). discriminate.
Defined.


(** C10.  The two operators are one procedure with the mode as parameter:
    in every context [SetOriginBottomOperator.execute] is the batch
    relocation procedure run with [use_bottom = True] and
    [SetOriginTopOperator.execute] is the same procedure run with
    [use_bottom = False]; result, final context and events agree. *)
Theorem operators_same_procedure {H : Host} (c : Ctx Obj Scene) :
  SetOriginBottomOperator_execute c = batch_relocation true c /\
  SetOriginTopOperator_execute c = batch_relocation false c.
Proof.
  split.
  - destruct (for_each_total true (selected_objects c) c) as (c1 & ev & Hloop).
    rewrite (batch_relocation_run true c c1 ev Hloop).
    exact (operator_run true c c1 ev Hloop).
  - destruct (for_each_total false (selected_objects c) c) as (c1 & ev & Hloop).
    rewrite (batch_relocation_run false c c1 ev Hloop).
    exact (operator_run false c c1 ev Hloop).
Qed.

(** * Objects the procedure does not relocate, across a whole invocation *)

(** Under the contract the specification gives the host command, that it
    relocates the origin of the active object and of no other, an object
    that is not a mesh or never has a vertex keeps its origin through an
    invocation.  [observe] stands for the origin, or for anything else the
    command leaves alone on the objects that are not active. *)
Theorem ineligible_object_kept {H : Host} (A : Type)
  (observe : Scene -> Obj -> A) (use_bottom : bool) (obj : Obj) :
  (forall c, active_object c <> Some obj ->
             observe (scene (origin_set c)) obj = observe (scene c) obj) ->
  type obj <> "MESH"%string \/ (forall s, evaluated_vertices s obj = []) ->
  forall c, exists c' ev,
    operator use_bottom c = Ok (FINISHED, c', ev) /\
    observe (scene c') obj = observe (scene c) obj.
Proof.
  intros Hframe Hinel c.
  destruct (for_each_total use_bottom (selected_objects c) c)
    as (c1 & ev & Hloop).
  do 2 eexists. split; [exact (operator_run use_bottom c c1 ev Hloop)|].
  cbn. exact (for_each_keeps A observe use_bottom obj Hframe Hinel _ c c1 ev Hloop).
Qed.

(** The contract holds in the small host, so there the light and the empty
    mesh keep their origins whatever is selected. *)
Lemma demo_origin_frame (obj : Demo.object) (c : Ctx Demo.object Demo.origins) :
  active_object c <> Some obj ->
  Demo.origin (scene (Demo.origin_to_cursor c)) obj = Demo.origin (scene c) obj.
Proof.
  unfold Demo.origin_to_cursor. destruct (active_object c) as [a|]; trivial.
  intros Hne. cbn. destruct (String.eqb a obj) eqn:Heq; trivial.
  apply String.eqb_eq in Heq. congruence.
Qed.

Lemma demo_ineligible_kept (c : Ctx Demo.object Demo.origins) :
  exists c' ev,
    @operator Demo.host true c = Ok (FINISHED, c', ev) /\
    Demo.origin (scene c') Demo.empty_mesh = Demo.origin (scene c) Demo.empty_mesh.
Proof.
  apply (@ineligible_object_kept Demo.host _ Demo.origin true Demo.empty_mesh).
  - intros c0. apply demo_origin_frame.
  - right. reflexivity.
Qed.

(** The scenario of a valid mesh, a mesh without vertices and an object
    that is not a mesh: only the valid mesh gets an origin, the cursor and
    the active object come back, and the operator reports completion. *)
Example mixed_selection_bottom :
  @operator Demo.host true Demo.mixed =
  Ok (FINISHED,
      mkCtx (mkVector PyFloat.one PyFloat.one PyFloat.one) (Some Demo.light)
            [Demo.empty_mesh; Demo.cube; Demo.light]
            [(Demo.cube, mkVector PyFloat.zero PyFloat.zero PyFloat.neg_half)],
      [ Calc Demo.empty_mesh true;
        Calc Demo.cube true;
        CursorSet (mkVector PyFloat.zero PyFloat.zero PyFloat.neg_half);
        ActiveSet (Some Demo.cube);
        OriginSet;
        CursorSet (mkVector PyFloat.one PyFloat.one PyFloat.one);
        ActiveSet (Some Demo.light) ]).
Proof. reflexivity. Qed.

(** * Further properties of the calculator *)

Lemma le_lt (a b : PyFloat.float) :
  PyFloat.le a b = true ->
  PyFloat.is_nan a = false /\ PyFloat.is_nan b = false /\
  PyFloat.lt b a = false.
Proof.
  intros Hle. apply le_key in Hle. destruct Hle as (Ha & Hb & Hk).
  repeat split; trivial.
  destruct (PyFloat.lt b a) eqn:Hlt; trivial.
  apply lt_key in Hlt. tauto.
Qed.

(** A minimum of a list stays a minimum, as a value, when items that are
    at least some item of the list are added. *)
Lemma is_min_extend (l l' : list PyFloat.float) (m m' : PyFloat.float) :
  incl l l' ->
  (forall w, In w l' -> exists a, In a l /\ PyFloat.le a w = true) ->
  is_min l m -> is_min l' m' -> PyFloat.eqv m m'.
Proof.
  intros Hincl Hlow (Hm & Hmin & _) (Hm' & Hmin' & _).
  destruct (Hlow m (Hincl m Hm)) as (a0 & _ & Ha0).
  destruct (Hlow m' Hm') as (a & Ha & Hle).
  apply le_lt in Ha0. destruct Ha0 as (_ & Hnm & _).
  apply le_lt in Hle. destruct Hle as (Hna & Hnm' & Hlt).
  apply not_lt_eqv; trivial.
  - apply Hmin'. now apply Hincl.
  - destruct (PyFloat.lt m' m) eqn:Hmm; trivial.
    destruct (lt_cotrans m' a m Hna Hmm) as [Hc|Hc]; [congruence|].
    rewrite (Hmin a Ha) in Hc. discriminate.
Qed.

Lemma is_max_extend (l l' : list PyFloat.float) (m m' : PyFloat.float) :
  incl l l' ->
  (forall w, In w l' -> exists b, In b l /\ PyFloat.le w b = true) ->
  is_max l m -> is_max l' m' -> PyFloat.eqv m m'.
Proof.
  intros Hincl Hup (Hm & Hmax & _) (Hm' & Hmax' & _).
  destruct (Hup m (Hincl m Hm)) as (b0 & _ & Hb0).
  destruct (Hup m' Hm') as (b & Hb & Hle).
  apply le_lt in Hb0. destruct Hb0 as (Hnm & _ & _).
  apply le_lt in Hle. destruct Hle as (Hnm' & Hnb & Hlt).
  apply not_lt_eqv; trivial.
  - destruct (PyFloat.lt m m') eqn:Hmm; trivial.
    destruct (lt_cotrans m b m' Hnb Hmm) as [Hc|Hc]; [|congruence].
    pose proof (Hmax b Hb) as Hbm. unfold PyFloat.gt in Hbm. congruence.
  - apply (Hmax' m). now apply Hincl.
Qed.

Lemma between_spec (l : list PyFloat.float) (w : PyFloat.float) :
  between l w = true ->
  (exists a, In a l /\ PyFloat.le a w = true) /\
  (exists b, In b l /\ PyFloat.le w b = true).
Proof.
  unfold between. rewrite andb_true_iff, !existsb_exists. tauto.
Qed.

Lemma in_box_axes (vs : list Vector) (w : Vector) :
  in_box vs w = true ->
  between (map x vs) (x w) = true /\ between (map y vs) (y w) = true /\
  between (map z vs) (z w) = true.
Proof. unfold in_box. rewrite !andb_true_iff. tauto. Qed.

(** The two scans of one axis agree, as values, on a list and on a longer
    list whose items all lie between items of the first. *)
Lemma scans_extend (f : Vector -> PyFloat.float) (v v' : Vector)
  (vs vs' : list Vector) :
  incl (v :: vs) (v' :: vs') ->
  (forall w, In w (v' :: vs') -> between (map f (v :: vs)) (f w) = true) ->
  PyFloat.eqv (PyFloat.min_from (f v) (map f vs))
              (PyFloat.min_from (f v') (map f vs')) /\
  PyFloat.eqv (PyFloat.max_from (f v) (map f vs))
              (PyFloat.max_from (f v') (map f vs')).
Proof.
  intros Hincl Hbox.
  assert (Hi : incl (map f (v :: vs)) (map f (v' :: vs'))).
  { intros a Ha. apply in_map_iff in Ha. destruct Ha as (u & <- & Hu).
    apply in_map. now apply Hincl. }
  split.
  - apply (is_min_extend (map f (v :: vs)) (map f (v' :: vs'))); trivial;
      try apply min_from_is_min.
    intros a Ha. apply in_map_iff in Ha. destruct Ha as (w & <- & Hw).
    exact (proj1 (between_spec _ _ (Hbox w Hw))).
  - apply (is_max_extend (map f (v :: vs)) (map f (v' :: vs'))); trivial;
      try apply max_from_is_max.
    intros a Ha. apply in_map_iff in Ha. destruct Ha as (w & <- & Hw).
    exact (proj2 (between_spec _ _ (Hbox w Hw))).
Qed.

(** X1.  The computed point depends on the bounding box only: when the
    world-space vertices of a second object include those of the first and
    all lie in the bounding box of the first, the calculator yields for
    both a point that is the same as a value.  Repeated vertices and
    vertices inside the box do not move the origin. *)
Theorem calculate_origin_point_box_only {H : Host}
  (s s' : Scene) (obj obj' : Obj) (use_bottom : bool) :
  evaluated_vertices s obj <> [] ->
  incl (world_verts s obj) (world_verts s' obj') ->
  forallb (in_box (world_verts s obj)) (world_verts s' obj') = true ->
  exists p p',
    calculate_origin_point s obj use_bottom = Ok (Some p) /\
    calculate_origin_point s' obj' use_bottom = Ok (Some p') /\
    Vector_eqv p p'.
Proof.
  intros Hne Hincl Hbox. unfold calculate_origin_point.
  rewrite forallb_forall in Hbox.
  destruct (world_verts s obj) as [|v vs] eqn:Hw.
  - apply world_verts_nil in Hw. contradiction.
  - destruct (world_verts s' obj') as [|v' vs'].
    + destruct (Hincl v (or_introl eq_refl)).
    + rewrite !origin_of_verts_cons. do 2 eexists.
      split; [reflexivity|]. split; [reflexivity|].
      destruct (scans_extend x v v' vs vs' Hincl) as [Hminx Hmaxx].
      { intros w Hw'. exact (proj1 (in_box_axes _ _ (Hbox w Hw'))). }
      destruct (scans_extend y v v' vs vs' Hincl) as [Hminy Hmaxy].
      { intros w Hw'. exact (proj1 (proj2 (in_box_axes _ _ (Hbox w Hw')))). }
      destruct (scans_extend z v v' vs vs' Hincl) as [Hminz Hmaxz].
      { intros w Hw'. exact (proj2 (proj2 (in_box_axes _ _ (Hbox w Hw')))). }
      repeat split; cbn.
      * now apply half_eqv, add_eqv.
      * now apply half_eqv, add_eqv.
      * now destruct use_bottom.
Qed.

Lemma calculate_origin_point_box_only_witness :
  @evaluated_vertices Shapes.host tt unit_cube <> [] /\
  incl (@world_verts Shapes.host tt unit_cube)
       (@world_verts Shapes.host tt Shapes.cube_with_inner) /\
  forallb (in_box (@world_verts Shapes.host tt unit_cube))
          (@world_verts Shapes.host tt Shapes.cube_with_inner) = true /\
  exists p p',
    @calculate_origin_point Shapes.host tt unit_cube true = Ok (Some p) /\
    @calculate_origin_point Shapes.host tt Shapes.cube_with_inner true =
      Ok (Some p') /\
    Vector_eqv p p'.
Proof.
  assert (Hne : @evaluated_vertices Shapes.host tt unit_cube <> [])
    by discriminate.
  assert (Hincl : incl (@world_verts Shapes.host tt unit_cube)
                       (@world_verts Shapes.host tt Shapes.cube_with_inner)).
  { unfold world_verts. cbn [evaluated_vertices Shapes.host].
    rewrite !map_id. apply incl_appl, incl_refl. }
  assert (Hbox : forallb (in_box (@world_verts Shapes.host tt unit_cube))
                   (@world_verts Shapes.host tt Shapes.cube_with_inner) = true)
    by reflexivity.
  repeat split; trivial.
  exact (@calculate_origin_point_box_only Shapes.host tt tt unit_cube
           Shapes.cube_with_inner true Hne Hincl Hbox).
Defined.

(** X2.  The two modes compute the same x and y and differ in z only: on
    an object with a vertex, the BOTTOM point and the TOP point have the
    same first two components, the TOP height is never below the BOTTOM
    height, and it is at least the BOTTOM height when no vertex height is
    a NaN. *)
Theorem bottom_top_differ_in_height {H : Host} (s : Scene) (obj : Obj) :
  evaluated_vertices s obj <> [] ->
  exists bottom top,
    calculate_origin_point s obj true = Ok (Some bottom) /\
    calculate_origin_point s obj false = Ok (Some top) /\
    x bottom = x top /\ y bottom = y top /\
    PyFloat.lt (z top) (z bottom) = false /\
    (PyFloat.no_nan (map z (world_verts s obj)) = true ->
     PyFloat.le (z bottom) (z top) = true).
Proof.
  intros Hne. unfold calculate_origin_point.
  destruct (world_verts s obj) as [|v vs] eqn:Hw.
  - apply world_verts_nil in Hw. contradiction.
  - rewrite !origin_of_verts_cons. do 2 eexists.
    split; [reflexivity|]. split; [reflexivity|]. cbn [x y z map].
    split; [reflexivity|]. split; [reflexivity|].
    destruct (min_from_is_min (z v) (map z vs)) as (_ & Hlow & Hle).
    pose proof (max_from_In (map z vs) (z v)) as Hin.
    split; [now apply Hlow | intros Hn; now apply Hle].
Qed.

Lemma bottom_top_differ_in_height_witness :
  @evaluated_vertices Shapes.host tt Shapes.cube_with_inner <> [] /\
  exists bottom top,
    @calculate_origin_point Shapes.host tt Shapes.cube_with_inner true =
      Ok (Some bottom) /\
    @calculate_origin_point Shapes.host tt Shapes.cube_with_inner false =
      Ok (Some top) /\
    x bottom = x top /\ y bottom = y top /\
    PyFloat.lt (z top) (z bottom) = false /\
    (PyFloat.no_nan (map z (@world_verts Shapes.host tt Shapes.cube_with_inner))
       = true ->
     PyFloat.le (z bottom) (z top) = true).
Proof.
  split; [discriminate|].
  apply (@bottom_top_differ_in_height Shapes.host tt Shapes.cube_with_inner).
  discriminate.
Defined.

Lemma min_from_not_nan (l : list PyFloat.float) :
  forall best, PyFloat.is_nan best = false ->
  PyFloat.is_nan (PyFloat.min_from best l) = false.
Proof.
  induction l as [|item l IH]; intros best Hn; simpl; trivial.
  apply IH. destruct (PyFloat.lt item best) eqn:Hlt; trivial.
  now apply lt_not_nan in Hlt.
Qed.

Lemma max_from_not_nan (l : list PyFloat.float) :
  forall best, PyFloat.is_nan best = false ->
  PyFloat.is_nan (PyFloat.max_from best l) = false.
Proof.
  induction l as [|item l IH]; intros best Hn; simpl; trivial.
  apply IH. unfold PyFloat.gt. destruct (PyFloat.lt best item) eqn:Hlt; trivial.
  now apply lt_not_nan in Hlt.
Qed.

(** X3.  A NaN coordinate counts in the first vertex only.  The height of
    the computed point is a NaN exactly when the height of the first
    world-space vertex is one, whatever the later vertices hold; and a NaN
    x or y in the first vertex makes that component of the point a NaN. *)
Theorem nan_counts_in_first_vertex {H : Host} (s : Scene) (obj : Obj)
  (use_bottom : bool) (v : Vector) (vs : list Vector) :
  world_verts s obj = v :: vs ->
  exists p,
    calculate_origin_point s obj use_bottom = Ok (Some p) /\
    PyFloat.is_nan (z p) = PyFloat.is_nan (z v) /\
    (PyFloat.is_nan (x v) = true -> PyFloat.is_nan (x p) = true) /\
    (PyFloat.is_nan (y v) = true -> PyFloat.is_nan (y p) = true).
Proof.
  intros Hw. unfold calculate_origin_point. rewrite Hw, origin_of_verts_cons.
  eexists. split; [reflexivity|]. cbn [x y z]. split; [|split].
  - destruct (PyFloat.is_nan (z v)) eqn:Hn.
    + rewrite min_from_nan, max_from_nan by trivial. now destruct use_bottom.
    + destruct use_bottom; [now apply min_from_not_nan | now apply max_from_not_nan].
  - intros Hn. rewrite min_from_nan, max_from_nan by trivial.
    destruct (x v); try discriminate. reflexivity.
  - intros Hn. rewrite min_from_nan, max_from_nan by trivial.
    destruct (y v); try discriminate. reflexivity.
Qed.

Lemma nan_counts_in_first_vertex_witness :
  @world_verts Shapes.host tt Shapes.nan_height_later =
    mkVector PyFloat.one PyFloat.one PyFloat.one ::
    [mkVector PyFloat.zero PyFloat.zero PyFloat.nan] /\
  exists p,
    @calculate_origin_point Shapes.host tt Shapes.nan_height_later false =
      Ok (Some p) /\
    PyFloat.is_nan (z p) = PyFloat.is_nan PyFloat.one /\
    (PyFloat.is_nan PyFloat.one = true -> PyFloat.is_nan (x p) = true) /\
    (PyFloat.is_nan PyFloat.one = true -> PyFloat.is_nan (y p) = true).
Proof.
  split; [reflexivity|].
  exact (@nan_counts_in_first_vertex Shapes.host tt Shapes.nan_height_later
           false (mkVector PyFloat.one PyFloat.one PyFloat.one)
           [mkVector PyFloat.zero PyFloat.zero PyFloat.nan] eq_refl).
Defined.


Lemma add_neg_self (a : PyFloat.float) :
  is_positive_finite a = true -> PyFloat.add (neg a) a = PyFloat.zero.
Proof.
  destruct a as [| | |[|] m e]; try discriminate. intros _.
  unfold PyFloat.add, neg, SFadd, SFopp, shl_align. cbn [negb].
  rewrite Z.min_id, Z.sub_diag. cbn [fst cond_Zopp].
  now rewrite Z.add_opp_diag_l.
Qed.

(** The scans of a list that spans an interval whose ends are not zeros
    return those ends. *)
Lemma scans_of_span (best : PyFloat.float) (l : list PyFloat.float)
  (lo hi : PyFloat.float) :
  spans (best :: l) lo hi ->
  PyFloat.is_zero lo = false -> PyFloat.is_zero hi = false ->
  PyFloat.min_from best l = lo /\ PyFloat.max_from best l = hi.
Proof.
  intros (Hlo & Hhi & Hall) Hzlo Hzhi.
  assert (Hnan : forall v, In v (best :: l) -> PyFloat.is_nan v = false).
  { intros v Hv. destruct (Hall v Hv) as [Hle _].
    now apply le_lt in Hle. }
  split.
  - apply (eqv_nonzero lo _ Hzlo).
    apply not_lt_eqv.
    + now apply Hnan.
    + apply Hnan, min_from_In.
    + now apply min_from_lower.
    + destruct (Hall _ (min_from_In l best)) as [Hle _].
      now apply le_lt in Hle.
  - apply (eqv_nonzero hi _ Hzhi).
    apply not_lt_eqv.
    + now apply Hnan.
    + apply Hnan, max_from_In.
    + destruct (Hall _ (max_from_In l best)) as [_ Hle].
      now apply le_lt in Hle.
    + now apply (max_from_upper l best hi).
Qed.

(** X5.  A bounding box centred on the vertical axis gives a point on
    that axis, exactly: when the x coordinates of the world-space vertices
    span an interval from [-a] to [a] and the y coordinates one from [-b]
    to [b], for positive finite [a] and [b], the computed point has
    x = 0.0 and y = 0.0 in both modes. *)
Theorem centred_box_gives_zero_centre {H : Host} (s : Scene) (obj : Obj)
  (use_bottom : bool) (a b : PyFloat.float) :
  is_positive_finite a = true -> is_positive_finite b = true ->
  spans (map x (world_verts s obj)) (neg a) a ->
  spans (map y (world_verts s obj)) (neg b) b ->
  exists p,
    calculate_origin_point s obj use_bottom = Ok (Some p) /\
    x p = PyFloat.zero /\ y p = PyFloat.zero.
Proof.
  intros Ha Hb Hx Hy. unfold calculate_origin_point.
  destruct (world_verts s obj) as [|v vs].
  - destruct Hx as ([] & _).
  - rewrite origin_of_verts_cons. eexists. split; [reflexivity|].
    cbn [x y z]. cbn [map] in Hx, Hy.
    destruct (scans_of_span _ _ _ _ Hx) as [-> ->];
      [destruct a as [| | |[|] ? ?]; try discriminate; reflexivity
      |destruct a as [| | |[|] ? ?]; try discriminate; reflexivity|].
    destruct (scans_of_span _ _ _ _ Hy) as [-> ->];
      [destruct b as [| | |[|] ? ?]; try discriminate; reflexivity
      |destruct b as [| | |[|] ? ?]; try discriminate; reflexivity|].
    rewrite !add_neg_self by trivial. split; reflexivity.
Qed.

Lemma unit_cube_spans (f : Vector -> PyFloat.float) :
  (f = x \/ f = y) ->
  spans (map f unit_cube) (neg PyFloat.pos_half) PyFloat.pos_half.
Proof.
  intros [->| ->]; (split; [cbn; auto 10|]); (split; [cbn; auto 10|]);
    intros v Hv; cbn in Hv;
    repeat (destruct Hv as [<-|Hv]; [split; reflexivity|]); contradiction.
Qed.

Lemma centred_box_gives_zero_centre_witness :
  is_positive_finite PyFloat.pos_half = true /\
  is_positive_finite PyFloat.pos_half = true /\
  spans (map x (@world_verts Shapes.host tt unit_cube))
        (neg PyFloat.pos_half) PyFloat.pos_half /\
  spans (map y (@world_verts Shapes.host tt unit_cube))
        (neg PyFloat.pos_half) PyFloat.pos_half /\
  exists p,
    @calculate_origin_point Shapes.host tt unit_cube true = Ok (Some p) /\
    x p = PyFloat.zero /\ y p = PyFloat.zero.
Proof.
  split; [reflexivity|]. split; [reflexivity|].
  split; [exact (unit_cube_spans x (or_introl eq_refl))|].
  split; [exact (unit_cube_spans y (or_intror eq_refl))|].
  exact (@centred_box_gives_zero_centre Shapes.host tt unit_cube true
           PyFloat.pos_half PyFloat.pos_half eq_refl eq_refl
           (unit_cube_spans x (or_introl eq_refl))
           (unit_cube_spans y (or_intror eq_refl))).
Defined.

(** * Further properties of the operators *)

Section TraceFacts.

Context {H : Host}.

Lemma calc_calls_app (ev1 ev2 : list (Event Obj)) :
  calc_calls (ev1 ++ ev2) = calc_calls ev1 ++ calc_calls ev2.
Proof.
  induction ev1 as [|e ev1 IH]; cbn; trivial.
  destruct e; cbn; now rewrite IH.
Qed.

Lemma origin_set_calls_app (ev1 ev2 : list (Event Obj)) :
  origin_set_calls (ev1 ++ ev2) = origin_set_calls ev1 + origin_set_calls ev2.
Proof.
  induction ev1 as [|e ev1 IH]; cbn; trivial.
  destruct e; cbn; now rewrite IH.
Qed.

(** One turn calls the calculator once on a mesh and never on another
    object, and calls the relocation command at most once, on a mesh. *)
Lemma turn_calls (use_bottom : bool) (obj : Obj) (c c' : Ctx Obj Scene)
  (ev : list (Event Obj)) :
  turn use_bottom obj c = Ok (tt, c', ev) ->
  calc_calls ev = (if is_mesh obj then [(obj, use_bottom)] else []) /\
  origin_set_calls ev <= (if is_mesh obj then 1 else 0).
Proof.
  unfold turn, is_mesh. destruct (String.eqb (type obj) "MESH").
  - destruct (calculate_origin_point (scene c) obj use_bottom) as [[p|]|e];
      [| |discriminate]; intros Heq; injection Heq as _ <-; cbn; auto.
  - intros Heq. injection Heq as _ <-. cbn. auto.
Qed.

Lemma for_each_calls (use_bottom : bool) (objs : list Obj) :
  forall (c c' : Ctx Obj Scene) (ev : list (Event Obj)),
  for_each objs (operator_body use_bottom) c = Ok (tt, c', ev) ->
  calc_calls ev = map (fun obj => (obj, use_bottom)) (filter is_mesh objs) /\
  origin_set_calls ev <= List.length (filter is_mesh objs).
Proof.
  induction objs as [|obj objs IH]; intros c c' ev Hrun.
  - cbn in Hrun. injection Hrun as _ <-. cbn. auto.
  - cbn in Hrun. unfold mbind in Hrun. rewrite operator_body_turn in Hrun.
    destruct (turn use_bottom obj c) as [[[u c1] ev1]|e1] eqn:Hturn;
      [|discriminate].
    destruct (for_each objs (operator_body use_bottom) c1)
      as [[[u2 c2] ev2]|e2] eqn:Hrest; [|discriminate].
    destruct u, u2. injection Hrun as _ <-.
    destruct (turn_calls use_bottom obj c c1 ev1 Hturn) as [Hc1 Ho1].
    destruct (IH c1 c2 ev2 Hrest) as [Hc2 Ho2].
    rewrite calc_calls_app, origin_set_calls_app, Hc1, Hc2. cbn [filter].
    destruct (is_mesh obj); cbn in *; split; trivial; lia.
Qed.

(** A loop over objects none of which is a mesh with a vertex leaves the
    context as it is and only calls the calculator on the meshes. *)
Lemma for_each_nothing_eligible (use_bottom : bool) (c : Ctx Obj Scene) :
  forall objs : list Obj,
  (forall obj, In obj objs -> is_mesh obj = true ->
               evaluated_vertices (scene c) obj = []) ->
  for_each objs (operator_body use_bottom) c =
  Ok (tt, c, map (fun obj => Calc obj use_bottom) (filter is_mesh objs)).
Proof.
  induction objs as [|obj objs IH]; intros Hinel; [reflexivity|].
  assert (Hturn : turn use_bottom obj c =
                  Ok (tt, c, if is_mesh obj then [Calc obj use_bottom] else [])).
  { unfold turn, is_mesh in *.
    destruct (String.eqb (type obj) "MESH") eqn:Ht; trivial.
    unfold calculate_origin_point.
    rewrite (proj2 (world_verts_nil (scene c) obj)
               (Hinel obj (or_introl eq_refl) Ht)).
    reflexivity. }
  rewrite <- operator_body_turn in Hturn.
  rewrite (for_each_cons (operator_body use_bottom) obj objs c c c _ _ Hturn
             (IH (fun o Ho => Hinel o (or_intror Ho)))).
  cbn [filter]. now destruct (is_mesh obj).
Qed.

Lemma Ctx_eta (c : Ctx Obj Scene) :
  mkCtx (cursor_location c) (active_object c) (selected_objects c) (scene c) = c.
Proof. now destruct c. Qed.

End TraceFacts.

(** X6.  In an invocation the calculator is called exactly once for each
    selected object of type mesh, in selection order and with the mode of
    the operator, and on no other object; the relocation command is called
    at most once per selected mesh. *)
Theorem calculator_called_once_per_mesh {H : Host} (use_bottom : bool)
  (c : Ctx Obj Scene) :
  exists c' ev,
    operator use_bottom c = Ok (FINISHED, c', ev) /\
    calc_calls ev =
      map (fun obj => (obj, use_bottom)) (filter is_mesh (selected_objects c)) /\
    origin_set_calls ev <= List.length (filter is_mesh (selected_objects c)).
Proof.
  destruct (for_each_total use_bottom (selected_objects c) c)
    as (c1 & ev & Hloop).
  do 2 eexists. split; [exact (operator_run use_bottom c c1 ev Hloop)|].
  destruct (for_each_calls use_bottom _ c c1 ev Hloop) as [Hc Ho].
  rewrite calc_calls_app, origin_set_calls_app, Hc. cbn.
  rewrite app_nil_r. split; trivial. lia.
Qed.

(** X7.  When no selected object is a mesh with a vertex (in particular
    when nothing is selected), an invocation returns {'FINISHED'} and
    leaves the whole host context exactly as it was: its only events are
    the calculator calls on the selected meshes and the two restoring
    assignments, and the relocation command is never called. *)
Theorem nothing_eligible_nothing_changes {H : Host} (use_bottom : bool)
  (c : Ctx Obj Scene) :
  (forall obj, In obj (selected_objects c) -> is_mesh obj = true ->
               evaluated_vertices (scene c) obj = []) ->
  operator use_bottom c =
  Ok (FINISHED, c,
      map (fun obj => Calc obj use_bottom) (filter is_mesh (selected_objects c))
      ++ restore_events c).
Proof.
  intros Hinel.
  rewrite (operator_run use_bottom c c _
             (for_each_nothing_eligible use_bottom c _ Hinel)).
  now rewrite Ctx_eta.
Qed.

Lemma nothing_eligible_nothing_changes_witness :
  (forall obj,
     In obj (selected_objects (Demo.ctx None [Demo.light; Demo.empty_mesh])) ->
     @is_mesh Demo.host obj = true ->
     @evaluated_vertices Demo.host
       (scene (Demo.ctx None [Demo.light; Demo.empty_mesh])) obj = []) /\
  @operator Demo.host false (Demo.ctx None [Demo.light; Demo.empty_mesh]) =
  Ok (FINISHED, Demo.ctx None [Demo.light; Demo.empty_mesh],
      map (fun obj => Calc obj false)
          (filter (@is_mesh Demo.host)
             (selected_objects (Demo.ctx None [Demo.light; Demo.empty_mesh])))
      ++ @restore_events Demo.host (Demo.ctx None [Demo.light; Demo.empty_mesh])).
Proof.
  assert (Hinel : forall obj,
     In obj (selected_objects (Demo.ctx None [Demo.light; Demo.empty_mesh])) ->
     @is_mesh Demo.host obj = true ->
     @evaluated_vertices Demo.host
       (scene (Demo.ctx None [Demo.light; Demo.empty_mesh])) obj = []).
  { intros obj [<-|[<-|[]]] Hm; [discriminate Hm | reflexivity]. }
  split; [exact Hinel|].
  exact (@nothing_eligible_nothing_changes Demo.host false
           (Demo.ctx None [Demo.light; Demo.empty_mesh]) Hinel).
Defined.

(** ** Under what is known of the host command *)

Section ContractFacts.

Context {H : Host}.













End ContractFacts.










(** * Registration and the panel *)

Lemma PyClass_eqb_eq (a b : PyClass) : PyClass_eqb a b = true <-> a = b.
Proof.
  unfold PyClass_eqb. destruct (PyClass_eq_dec a b); split; trivial;
    [discriminate | contradiction].
Qed.

Section RegistrationFacts.

Context {R : Registry}.

(** X10.  With a registry that registers what is not registered and
    unregisters what is, [register()] run while none of the three classes
    is registered succeeds and registers the two operators and the panel;
    [unregister()] run after it succeeds and leaves every class, of the
    add-on or not, registered exactly when it was before [register()]. *)
Theorem register_then_unregister (r : Reg) :
  registry_contract ->
  is_registered r SetOriginBottomOperator = false ->
  is_registered r SetOriginTopOperator = false ->
  is_registered r OriginToolsPanel = false ->
  exists r1 r2,
    register r = Some r1 /\
    is_registered r1 SetOriginBottomOperator = true /\
    is_registered r1 SetOriginTopOperator = true /\
    is_registered r1 OriginToolsPanel = true /\
    unregister r1 = Some r2 /\
    forall k, is_registered r2 k = is_registered r k.
Proof.
  intros [Hreg Hunreg] Hb Ht Hp.
  assert (Hbt : SetOriginTopOperator <> SetOriginBottomOperator) by discriminate.
  assert (Hbp : OriginToolsPanel <> SetOriginBottomOperator) by discriminate.
  assert (Htp : OriginToolsPanel <> SetOriginTopOperator) by discriminate.
  assert (Htb : SetOriginBottomOperator <> SetOriginTopOperator) by discriminate.
  assert (Hpb : SetOriginBottomOperator <> OriginToolsPanel) by discriminate.
  assert (Hpt : SetOriginTopOperator <> OriginToolsPanel) by discriminate.
  destruct (Hreg r _ Hb) as (a1 & Ha1 & Ha1b & Ha1o).
  destruct (Hreg a1 SetOriginTopOperator) as (a2 & Ha2 & Ha2t & Ha2o).
  { now rewrite Ha1o. }
  destruct (Hreg a2 OriginToolsPanel) as (a3 & Ha3 & Ha3p & Ha3o).
  { now rewrite Ha2o, Ha1o. }
  assert (Ha3b : is_registered a3 SetOriginBottomOperator = true)
    by now rewrite Ha3o, Ha2o.
  assert (Ha3t : is_registered a3 SetOriginTopOperator = true)
    by now rewrite Ha3o.
  destruct (Hunreg a3 _ Ha3b) as (u1 & Hu1 & Hu1b & Hu1o).
  destruct (Hunreg u1 SetOriginTopOperator) as (u2 & Hu2 & Hu2t & Hu2o).
  { now rewrite Hu1o. }
  destruct (Hunreg u2 OriginToolsPanel) as (u3 & Hu3 & Hu3p & Hu3o).
  { now rewrite Hu2o, Hu1o. }
  exists a3, u3. unfold register, unregister.
  rewrite Ha1, Ha2, Ha3, Hu1, Hu2, Hu3. repeat split; trivial.
  intros k.
  destruct (PyClass_eq_dec k OriginToolsPanel) as [->|Hkp];
    [now rewrite Hu3p, Hp|].
  rewrite (Hu3o k Hkp).
  destruct (PyClass_eq_dec k SetOriginTopOperator) as [->|Hkt];
    [now rewrite Hu2t, Ht|].
  rewrite (Hu2o k Hkt).
  destruct (PyClass_eq_dec k SetOriginBottomOperator) as [->|Hkb];
    [now rewrite Hu1b, Hb|].
  now rewrite (Hu1o k Hkb), (Ha3o k Hkp), (Ha2o k Hkt), (Ha1o k Hkb).
Qed.

(** X11.  Once [register()] has run, the panel offers exactly the operators
    of the add-on: every button [OriginToolsPanel.draw] adds to an empty
    layout carries the identifier of a registered class that is an
    operator, and each of the two operator classes has its button. *)
Theorem panel_offers_registered_operators (r : Reg) :
  registry_contract ->
  is_registered r SetOriginBottomOperator = false ->
  is_registered r SetOriginTopOperator = false ->
  is_registered r OriginToolsPanel = false ->
  exists r1,
    register r = Some r1 /\
    (forall idname, In idname (OriginToolsPanel_draw []) ->
       exists k, is_registered r1 k = true /\ base k = OperatorBase /\
                 bl_idname k = idname) /\
    In (bl_idname SetOriginBottomOperator) (OriginToolsPanel_draw []) /\
    In (bl_idname SetOriginTopOperator) (OriginToolsPanel_draw []).
Proof.
  intros [Hreg _] Hb Ht Hp.
  assert (Hbt : SetOriginBottomOperator <> SetOriginTopOperator) by discriminate.
  assert (Hbp : SetOriginBottomOperator <> OriginToolsPanel) by discriminate.
  assert (Htp : SetOriginTopOperator <> OriginToolsPanel) by discriminate.
  assert (Htb : SetOriginTopOperator <> SetOriginBottomOperator) by discriminate.
  destruct (Hreg r _ Hb) as (a1 & Ha1 & Ha1b & Ha1o).
  destruct (Hreg a1 SetOriginTopOperator) as (a2 & Ha2 & Ha2t & Ha2o).
  { now rewrite Ha1o. }
  destruct (Hreg a2 OriginToolsPanel) as (a3 & Ha3 & Ha3p & Ha3o).
  { rewrite Ha2o, Ha1o; trivial; discriminate. }
  exists a3. unfold register. rewrite Ha1, Ha2, Ha3.
  split; [reflexivity|]. split.
  - intros idname [<-|[<-|[]]].
    + exists SetOriginBottomOperator. repeat split. now rewrite Ha3o, Ha2o.
    + exists SetOriginTopOperator. repeat split. now rewrite Ha3o.
  - split; cbn; auto.
Qed.

End RegistrationFacts.

Lemma list_registry_drop_self (r : list PyClass) (k : PyClass) :
  ListRegistry.mem (filter (fun k' => negb (PyClass_eqb k' k)) r) k = false.
Proof.
  unfold ListRegistry.mem.
  induction r as [|a r IH]; cbn; trivial.
  destruct (PyClass_eqb a k) eqn:Heq; cbn; trivial.
  now rewrite Heq.
Qed.

Lemma list_registry_drop_other (r : list PyClass) (k k' : PyClass) :
  k' <> k ->
  ListRegistry.mem (filter (fun a => negb (PyClass_eqb a k)) r) k' =
  ListRegistry.mem r k'.
Proof.
  intros Hne. unfold ListRegistry.mem.
  induction r as [|a r IH]; cbn; trivial.
  destruct (PyClass_eqb a k) eqn:Heq; cbn.
  - rewrite IH. destruct (PyClass_eqb a k') eqn:Heq'; trivial.
    apply PyClass_eqb_eq in Heq, Heq'. congruence.
  - now rewrite IH.
Qed.

Lemma list_registry_contract : @registry_contract ListRegistry.registry.
Proof.
  split; intros r k Hk; cbn in *.
  - exists (k :: r). unfold ListRegistry.add. rewrite Hk.
    split; [reflexivity|]. split.
    + cbn. now rewrite (proj2 (PyClass_eqb_eq k k) eq_refl).
    + intros k' Hne. cbn.
      destruct (PyClass_eqb k k') eqn:Heq; trivial.
      apply PyClass_eqb_eq in Heq. congruence.
  - eexists. unfold ListRegistry.drop. rewrite Hk.
    split; [reflexivity|]. split.
    + apply list_registry_drop_self.
    + intros k' Hne. now apply list_registry_drop_other.
Qed.

Lemma register_then_unregister_witness :
  @registry_contract ListRegistry.registry /\
  @is_registered ListRegistry.registry [] SetOriginBottomOperator = false /\
  @is_registered ListRegistry.registry [] SetOriginTopOperator = false /\
  @is_registered ListRegistry.registry [] OriginToolsPanel = false /\
  exists r1 r2,
    @register ListRegistry.registry [] = Some r1 /\
    @is_registered ListRegistry.registry r1 SetOriginBottomOperator = true /\
    @is_registered ListRegistry.registry r1 SetOriginTopOperator = true /\
    @is_registered ListRegistry.registry r1 OriginToolsPanel = true /\
    @unregister ListRegistry.registry r1 = Some r2 /\
    forall k, @is_registered ListRegistry.registry r2 k =
              @is_registered ListRegistry.registry [] k.
Proof.
  split; [exact list_registry_contract|].
  split; [reflexivity|]. split; [reflexivity|]. split; [reflexivity|].
  exact (@register_then_unregister ListRegistry.registry []
           list_registry_contract eq_refl eq_refl eq_refl).
Defined.

Lemma panel_offers_registered_operators_witness :
  @registry_contract ListRegistry.registry /\
  @is_registered ListRegistry.registry [] SetOriginBottomOperator = false /\
  @is_registered ListRegistry.registry [] SetOriginTopOperator = false /\
  @is_registered ListRegistry.registry [] OriginToolsPanel = false /\
  exists r1,
    @register ListRegistry.registry [] = Some r1 /\
    (forall idname, In idname (OriginToolsPanel_draw []) ->
       exists k, @is_registered ListRegistry.registry r1 k = true /\
                 base k = OperatorBase /\ bl_idname k = idname) /\
    In (bl_idname SetOriginBottomOperator) (OriginToolsPanel_draw []) /\
    In (bl_idname SetOriginTopOperator) (OriginToolsPanel_draw []).
Proof.
  split; [exact list_registry_contract|].
  split; [reflexivity|]. split; [reflexivity|]. split; [reflexivity|].
  exact (@panel_offers_registered_operators ListRegistry.registry []
           list_registry_contract eq_refl eq_refl eq_refl).
Defined.
